(** * Risk classification and feature engineering pipeline

    A shallow embedding of [src/02_clean_and_engineer.py] (the enrichment
    pipeline: load, merge, deduplicate, derive [is_paid] / [delay_days],
    attach customer attributes, classify risk) together with the properties
    of the pipeline that the specification states.

    Data frames are lists of records, one record per row, in row order.
    A cell that pandas shows as NaN / NaT / None is [None] (or [FNaN] for a
    float cell).  Python exceptions are the [Raise] branch of [result].

    The key columns [txn_id], [customer_id] and [payment_id] of the three
    files are integer columns, and [paid_amount] is a float column; the
    date columns and [amount] may hold any text.  A date cell and an
    amount cell are kept as what pandas makes of them where they stand
    (see [date_cell] and [num_cell]); dates are without time zone.  The
    frames have at least one row wherever a property says that a run ends
    well. *)

From stdpp Require Import base decidable option list numbers strings.
From Stdlib Require Import ZArith QArith Qcanon Lia.

Local Open Scope Z_scope.

(** ** Python floats

    [assign_risk_level] only compares its arguments with integer constants.
    An IEEE comparison is exact, so a float is modelled by the value it
    denotes: not-a-number, one of the two infinities, or a rational (every
    finite binary64 value is one). *)

Inductive pyfloat : Type :=
  | FNaN
  | FNegInf
  | FFin (q : Qc)
  | FPosInf.

Global Instance pyfloat_eq_dec : EqDecision pyfloat.
Proof. solve_decision. Defined.

(** [x >= n] for a float [x] and a Python int [n]: false on NaN. *)
Definition float_ge_int (x : pyfloat) (n : Z) : bool :=
  match x with
  | FNaN => false
  | FNegInf => false
  | FFin q => Qle_bool (inject_Z n) q
  | FPosInf => true
  end.

(** [x <= y] on floats: false as soon as one side is NaN. *)
Definition float_le (x y : pyfloat) : bool :=
  match x, y with
  | FNaN, _ | _, FNaN => false
  | FNegInf, _ => true
  | _, FPosInf => true
  | FFin p, FFin q => Qle_bool p q
  | FFin _, FNegInf => false
  | FPosInf, _ => false
  end.

(** [float(n)] of an integer (exact in the range of day counts and ids). *)
Definition float_of_Z (n : Z) : pyfloat := FFin (Qc_of_Z n).

(** The float of value [q]. *)
Definition float_of_Q (q : Q) : pyfloat := FFin (Q2Qc q).

(** ** Risk tiers and thresholds *)

Inductive risk : Type := Low | Medium | High.

Global Instance risk_eq_dec : EqDecision risk.
Proof. solve_decision. Defined.

(** The label written to the [risk_level] column. *)
Definition risk_label (r : risk) : string :=
  match r with
  | Low => "Low"
  | Medium => "Medium"
  | High => "High"
  end.

(** The tier order Low < Medium < High. *)
Definition risk_rank (r : risk) : nat :=
  match r with
  | Low => 0%nat
  | Medium => 1%nat
  | High => 2%nat
  end.

Definition risk_le (r1 r2 : risk) : Prop := (risk_rank r1 <= risk_rank r2)%nat.

Definition HIGH_AMOUNT_THRESHOLD : Z := 100000.
Definition MEDIUM_AMOUNT_THRESHOLD : Z := 50000.
Definition HIGH_DELAY_THRESHOLD : Z := 30.
Definition MEDIUM_DELAY_THRESHOLD : Z := 10.

Definition assign_risk_level (amount delay_days : pyfloat) : risk :=
  if float_ge_int amount HIGH_AMOUNT_THRESHOLD
     || float_ge_int delay_days HIGH_DELAY_THRESHOLD
  then High
  else if float_ge_int amount MEDIUM_AMOUNT_THRESHOLD
          || float_ge_int delay_days MEDIUM_DELAY_THRESHOLD
  then Medium
  else Low.

(** ** Exceptions

    The two places of the script where a Python exception can start; each
    carries the text of the cell that caused it. *)

Inductive exception : Type :=
  | ToDatetimeError (cell : string)   (* ValueError out of pd.to_datetime *)
  | FloatError (cell : string).       (* ValueError out of float(...) *)

Inductive result (A : Type) : Type :=
  | Ok (a : A)
  | Raise (e : exception).
Arguments Ok {A} a.
Arguments Raise {A} e.

Global Instance result_ret : MRet result := fun A a => Ok a.

Global Instance result_bind : MBind result := fun A B k m =>
  match m with
  | Ok a => k a
  | Raise e => Raise e
  end.

(** [mapM f l] (from stdpp, at the [result] monad) runs [f] on the rows in
    order; the first exception ends the run. *)

(** ** Cells of the raw CSV files *)

(** A date cell, as [pd.to_datetime] meets it in its column: empty, a text
    that it reads there (kept as the timestamp without time zone that it
    reads, in nanoseconds since the epoch), or a text that it does not read
    there.  pandas reads a column in one format, which it guesses from the
    first cell, so that what a text is depends on the column it stands in
    and on the order of the rows: the same text can be a date in one file
    and no date in another. *)
Inductive date_cell : Type :=
  | DateEmpty
  | DateStamp (ns : Z)
  | DateBad (text : string).

(** An amount cell: a float, the number that [float] makes of the cell
    (NaN when the cell is empty or holds one of the spellings that
    [pd.read_csv] takes for a missing value, such as NA, N/A, n/a, NULL,
    null, None, nan), or a text that [read_csv] keeps as it is and that
    Python's [float] rejects. *)
Inductive num_cell : Type :=
  | NumFloat (x : pyfloat)
  | NumText (text : string).

Global Instance num_cell_eq_dec : EqDecision num_cell.
Proof. solve_decision. Defined.

(** Timestamps after parsing; [None] is NaT. *)
Definition datetime : Type := option Z.

Record Customer : Type := {
  c_customer_id : Z;
  c_customer_name : option string;
  c_sector : option string;
  c_country : option string
}.

Record RawTransaction : Type := {
  rt_txn_id : Z;
  rt_customer_id : Z;
  rt_txn_date : date_cell;
  rt_txn_type : option string;
  rt_amount : num_cell;
  rt_currency : option string;
  rt_due_date : date_cell
}.

Record RawPayment : Type := {
  rp_payment_id : Z;
  rp_txn_id : Z;
  rp_payment_date : date_cell;
  rp_paid_amount : pyfloat
}.

(** The three files read by [load_raw_data]. *)
Record RawData : Type := {
  customers_csv : list Customer;
  transactions_csv : list RawTransaction;
  payments_csv : list RawPayment
}.

Record Transaction : Type := {
  t_txn_id : Z;
  t_customer_id : Z;
  t_txn_date : datetime;
  t_txn_type : option string;
  t_amount : num_cell;
  t_currency : option string;
  t_due_date : datetime
}.

Record Payment : Type := {
  p_payment_id : Z;
  p_txn_id : Z;
  p_payment_date : datetime;
  p_paid_amount : pyfloat
}.

Global Instance Customer_eq_dec : EqDecision Customer.
Proof. solve_decision. Defined.
Global Instance Transaction_eq_dec : EqDecision Transaction.
Proof. solve_decision. Defined.
Global Instance Payment_eq_dec : EqDecision Payment.
Proof. solve_decision. Defined.

(** ** Loading *)

Inductive errors_mode : Type := ErrorsRaise | ErrorsCoerce.

Definition to_datetime_cell (errors : errors_mode) (c : date_cell)
  : result datetime :=
  match c with
  | DateEmpty => Ok None
  | DateStamp ns => Ok (Some ns)
  | DateBad text =>
      match errors with
      | ErrorsRaise => Raise (ToDatetimeError text)
      | ErrorsCoerce => Ok None
      end
  end.

(** [pd.to_datetime(column, errors=...)], on the cells as they are in this
    column. *)
Definition to_datetime (errors : errors_mode) (column : list date_cell)
  : result (list datetime) :=
  mapM (to_datetime_cell errors) column.

Definition set_dates (rt : RawTransaction) (dates : datetime * datetime)
  : Transaction :=
  {| t_txn_id := rt_txn_id rt;
     t_customer_id := rt_customer_id rt;
     t_txn_date := fst dates;
     t_txn_type := rt_txn_type rt;
     t_amount := rt_amount rt;
     t_currency := rt_currency rt;
     t_due_date := snd dates |}.

Definition set_payment_date (rp : RawPayment) (date : datetime) : Payment :=
  {| p_payment_id := rp_payment_id rp;
     p_txn_id := rp_txn_id rp;
     p_payment_date := date;
     p_paid_amount := rp_paid_amount rp |}.

(** The two transaction date columns are parsed strictly (no [errors]
    argument, so the default "raise"), the payment date with
    [errors="coerce"]. *)
Definition load_raw_data (files : RawData)
  : result (list Customer * list Transaction * list Payment) :=
  let customers := customers_csv files in
  let transactions := transactions_csv files in
  let payments := payments_csv files in
  txn_date ← to_datetime ErrorsRaise (rt_txn_date <$> transactions);
  due_date ← to_datetime ErrorsRaise (rt_due_date <$> transactions);
  payment_date ← to_datetime ErrorsCoerce (rp_payment_date <$> payments);
  Ok (customers,
      zip_with set_dates transactions (zip txn_date due_date),
      zip_with set_payment_date payments payment_date).

(** ** The frames of [main] *)

(** A row of [transactions.merge(payments, on="txn_id", how="left")]:
    the transaction columns and the payment columns, the latter missing
    when no payment matches.  [payment_id] is the number in the cell;
    pandas holds this column as floats as soon as one row has no payment,
    which keeps the whole numbers up to 2^53 as they are. *)
Record TxnPay : Type := {
  tp_txn : Transaction;
  payment_id : option Z;
  payment_date : datetime;
  paid_amount : pyfloat
}.

Global Instance TxnPay_eq_dec : EqDecision TxnPay.
Proof. solve_decision. Defined.

Definition txn_id (r : TxnPay) : Z := t_txn_id (tp_txn r).
Definition customer_id (r : TxnPay) : Z := t_customer_id (tp_txn r).
Definition amount (r : TxnPay) : num_cell := t_amount (tp_txn r).
Definition due_date (r : TxnPay) : datetime := t_due_date (tp_txn r).

(** The frame after [is_paid] and [delay_days] were added. *)
Record Featured : Type := {
  f_row : TxnPay;
  is_paid : bool;
  delay_days : Z
}.

(** The frame after the customer columns were added. *)
Record Enriched : Type := {
  e_row : Featured;
  customer_name : option string;
  sector : option string;
  country : option string
}.

(** A row of the analysis table. *)
Record AnalysisRecord : Type := {
  a_row : Enriched;
  risk_level : risk
}.

Definition a_txnpay (r : AnalysisRecord) : TxnPay := f_row (e_row (a_row r)).
Definition a_txn (r : AnalysisRecord) : Transaction := tp_txn (a_txnpay r).
Definition a_is_paid (r : AnalysisRecord) : bool := is_paid (e_row (a_row r)).
Definition a_delay_days (r : AnalysisRecord) : Z := delay_days (e_row (a_row r)).

(** ** Frame operations *)

(** The rows that a left join makes out of one left row: one per right row
    with the same key, in the order of [right], and one with the right
    columns missing when there is none. *)
Definition merge_row {A B C} (key_l : A -> Z) (key_r : B -> Z)
    (matched : A -> B -> C) (unmatched : A -> C)
    (right : list B) (a : A) : list C :=
  match filter (fun b => key_r b = key_l a) right with
  | [] => [unmatched a]
  | bs => matched a <$> bs
  end.

(** [left.merge(right, on=key, how="left")]: the rows of the left rows,
    in the order of [left]. *)
Definition merge_left {A B C} (key_l : A -> Z) (key_r : B -> Z)
    (matched : A -> B -> C) (unmatched : A -> C)
    (left : list A) (right : list B) : list C :=
  left ≫= merge_row key_l key_r matched unmatched right.

(** [df.drop_duplicates()]: a row is dropped when an equal row came before
    it; the first of a group of equal rows is kept, in place. *)
Fixpoint drop_duplicates_from {A} `{EqDecision A} (seen l : list A) : list A :=
  match l with
  | [] => []
  | x :: l' =>
      if decide (x ∈ seen) then drop_duplicates_from seen l'
      else x :: drop_duplicates_from (x :: seen) l'
  end.

Definition drop_duplicates {A} `{EqDecision A} (l : list A) : list A :=
  drop_duplicates_from [] l.

(** [series.notna()] and [series.fillna(v)] on one cell. *)
Definition notna {A} (c : option A) : bool :=
  match c with Some _ => true | None => false end.

Definition fillna {A} (v : A) (c : option A) : A :=
  match c with Some x => x | None => v end.

Definition NS_PER_DAY : Z := 86400000000000.

(** [a - b] on timestamps: NaT as soon as one side is NaT.  (Timestamps
    are taken close enough for their difference to be a timedelta.) *)
Definition sub_datetime (a b : datetime) : option Z :=
  match a, b with
  | Some x, Some y => Some (x - y)
  | _, _ => None
  end.

(** [.dt.days] of a timedelta: its whole days, rounded down. *)
Definition dt_days (td : option Z) : option Z :=
  match td with
  | Some ns => Some (ns / NS_PER_DAY)
  | None => None
  end.

(** ** The steps of [main] *)

Definition with_payment (t : Transaction) (p : Payment) : TxnPay :=
  {| tp_txn := t;
     payment_id := Some (p_payment_id p);
     payment_date := p_payment_date p;
     paid_amount := p_paid_amount p |}.

Definition without_payment (t : Transaction) : TxnPay :=
  {| tp_txn := t;
     payment_id := None;
     payment_date := None;
     paid_amount := FNaN |}.

Definition merge_payments (transactions : list Transaction)
    (payments : list Payment) : list TxnPay :=
  merge_left t_txn_id p_txn_id with_payment without_payment
    transactions payments.

Definition add_features (r : TxnPay) : Featured :=
  {| f_row := r;
     is_paid := notna (payment_date r);
     delay_days :=
       fillna 0 (dt_days (sub_datetime (payment_date r) (due_date r))) |}.

Definition with_customer (r : Featured) (c : Customer) : Enriched :=
  {| e_row := r;
     customer_name := c_customer_name c;
     sector := c_sector c;
     country := c_country c |}.

Definition without_customer (r : Featured) : Enriched :=
  {| e_row := r; customer_name := None; sector := None; country := None |}.

Definition merge_customers (df : list Featured) (customers : list Customer)
  : list Enriched :=
  merge_left (fun r => customer_id (f_row r)) c_customer_id
    with_customer without_customer df customers.

Definition fill_unknown (r : Enriched) : Enriched :=
  {| e_row := e_row r;
     customer_name := customer_name r;
     sector := Some (fillna "Unknown"%string (sector r));
     country := Some (fillna "Unknown"%string (country r)) |}.

(** [float(cell)]. *)
Definition float_of_cell (c : num_cell) : result pyfloat :=
  match c with
  | NumFloat x => Ok x
  | NumText text => Raise (FloatError text)
  end.

(** The lambda applied to each row by [df.apply(..., axis=1)]. *)
Definition classify_row (r : Enriched) : result AnalysisRecord :=
  a ← float_of_cell (amount (f_row (e_row r)));
  Ok {| a_row := r;
        risk_level :=
          assign_risk_level a (float_of_Z (delay_days (e_row r))) |}.

(** Steps 2 to 5 of [main], on the loaded frames. *)
Definition enrich (customers : list Customer)
    (transactions : list Transaction) (payments : list Payment)
  : list Enriched :=
  let df := merge_payments transactions payments in
  let df := drop_duplicates df in
  let df := add_features <$> df in
  let df := merge_customers df customers in
  fill_unknown <$> df.

(** [main]: the analysis table written to [analysis_table.csv], or the
    exception that ends the run.  ([df.apply] calls the lambda once per
    row, in row order.) *)
Definition main (files : RawData) : result (list AnalysisRecord) :=
  loaded ← load_raw_data files;
  let '(customers, transactions, payments) := loaded in
  mapM classify_row (enrich customers transactions payments).

(** ** Reading a column of amounts

    The text of the first cell of a column that [float] rejects, if any:
    the cell at which a row-by-row conversion stops. *)
Fixpoint first_non_numeric (column : list num_cell) : option string :=
  match column with
  | [] => None
  | NumFloat _ :: column' => first_non_numeric column'
  | NumText text :: _ => Some text
  end.

(** A cell that [float] accepts. *)
Definition numeric (c : num_cell) : Prop := exists x, c = NumFloat x.

(** ** Sample files

    Small inputs on which the pipeline is run below.  Days are counted from
    1970-01-01: day 19723 is 2024-01-01, day 19732 is 2024-01-10. *)

Definition midnight (day : Z) : Z := day * NS_PER_DAY.

Definition hours (h : Z) : Z := h * 3600000000000.

Definition sale (id customer : Z) (amount : num_cell) (due : date_cell)
  : RawTransaction :=
  {| rt_txn_id := id;
     rt_customer_id := customer;
     rt_txn_date := DateStamp (midnight 19723);
     rt_txn_type := Some "SALE"%string;
     rt_amount := amount;
     rt_currency := Some "PLN"%string;
     rt_due_date := due |}.

Definition paid (id txn : Z) (date : date_cell) (paid_amount : pyfloat)
  : RawPayment :=
  {| rp_payment_id := id;
     rp_txn_id := txn;
     rp_payment_date := date;
     rp_paid_amount := paid_amount |}.

Definition sample_customers : list Customer :=
  [ {| c_customer_id := 1;
       c_customer_name := Some "Customer_001"%string;
       c_sector := Some "Retail"%string;
       c_country := Some "PL"%string |};
    {| c_customer_id := 2;
       c_customer_name := Some "Customer_002"%string;
       c_sector := None;
       c_country := Some "TR"%string |} ].

(** Four transactions: one paid five days late, one unpaid whose customer
    is not in the customer file, two paid before they were due. *)
Definition sample_files : RawData :=
  {| customers_csv := sample_customers;
     transactions_csv :=
       [ sale 1 1 (NumFloat (float_of_Z 120000)) (DateStamp (midnight 19732));
         sale 2 9 (NumFloat (float_of_Z 1000)) (DateStamp (midnight 19732));
         sale 3 2 (NumFloat (float_of_Q (6000050 # 100)))
                  (DateStamp (midnight 19732));
         sale 4 1 (NumFloat (float_of_Z 150000)) (DateStamp (midnight 19732)) ];
     payments_csv :=
       [ paid 1 1 (DateStamp (midnight 19737)) (float_of_Z 118000);
         paid 2 3 (DateStamp (midnight 19730 + hours 12)) (float_of_Z 60000);
         paid 3 4 (DateStamp (midnight 19731)) (float_of_Z 150000) ] |}.

(** A paid transaction whose due date cell is empty. *)
Definition no_due_date_files : RawData :=
  {| customers_csv := sample_customers;
     transactions_csv := [ sale 1 1 (NumFloat (float_of_Z 1000)) DateEmpty ];
     payments_csv :=
       [ paid 1 1 (DateStamp (midnight 19737)) (float_of_Z 1000) ] |}.

(** A transaction row written twice, and one payment row per written row,
    as the data generator produces them. *)
Definition duplicated_files : RawData :=
  {| customers_csv := sample_customers;
     transactions_csv :=
       [ sale 1 1 (NumFloat (float_of_Z 1000)) (DateStamp (midnight 19732));
         sale 1 1 (NumFloat (float_of_Z 1000)) (DateStamp (midnight 19732)) ];
     payments_csv :=
       [ paid 1 1 (DateStamp (midnight 19737)) (float_of_Z 950);
         paid 2 1 (DateStamp (midnight 19740)) (float_of_Z 900) ] |}.

(** One transaction with two payment rows. *)
Definition two_payments_files : RawData :=
  {| customers_csv := sample_customers;
     transactions_csv :=
       [ sale 7 2 (NumFloat (float_of_Z 2500)) (DateStamp (midnight 19732)) ];
     payments_csv :=
       [ paid 1 7 (DateStamp (midnight 19733)) (float_of_Z 1500);
         paid 2 7 (DateStamp (midnight 19735)) (float_of_Z 1000) ] |}.

(** Malformed dates, one file per date column. *)
Definition bad_txn_date_files : RawData :=
  {| customers_csv := sample_customers;
     transactions_csv :=
       [ {| rt_txn_id := 1;
            rt_customer_id := 1;
            rt_txn_date := DateBad "not-a-date";
            rt_txn_type := Some "SALE"%string;
            rt_amount := NumFloat (float_of_Z 1000);
            rt_currency := Some "PLN"%string;
            rt_due_date := DateStamp (midnight 19732) |} ];
     payments_csv := [] |}.

Definition bad_due_date_files : RawData :=
  {| customers_csv := sample_customers;
     transactions_csv :=
       [ sale 1 1 (NumFloat (float_of_Z 1000)) (DateBad "2024-13-45") ];
     payments_csv := [] |}.

Definition bad_payment_date_files : RawData :=
  {| customers_csv := sample_customers;
     transactions_csv :=
       [ sale 1 1 (NumFloat (float_of_Z 1000)) (DateStamp (midnight 19732)) ];
     payments_csv := [ paid 1 1 (DateBad "soon") (float_of_Z 1000) ] |}.

(** A transaction row written twice, with a single payment row for it. *)
Definition repeated_row_files : RawData :=
  {| customers_csv := sample_customers;
     transactions_csv :=
       [ sale 1 1 (NumFloat (float_of_Z 1000)) (DateStamp (midnight 19732));
         sale 2 2 (NumFloat (float_of_Z 70000)) (DateStamp (midnight 19732));
         sale 1 1 (NumFloat (float_of_Z 1000)) (DateStamp (midnight 19732)) ];
     payments_csv :=
       [ paid 1 1 (DateStamp (midnight 19737)) (float_of_Z 950) ] |}.

(** An empty amount cell, on a transaction paid three days late. *)
Definition absent_amount_files : RawData :=
  {| customers_csv := sample_customers;
     transactions_csv :=
       [ sale 5 1 (NumFloat FNaN) (DateStamp (midnight 19732)) ];
     payments_csv :=
       [ paid 1 5 (DateStamp (midnight 19735)) (float_of_Z 10) ] |}.

(** Two amount cells that are not numbers, after a row that is fine. *)
Definition text_amount_files : RawData :=
  {| customers_csv := sample_customers;
     transactions_csv :=
       [ sale 1 1 (NumFloat (float_of_Z 1000)) (DateStamp (midnight 19732));
         sale 2 1 (NumText "abc") (DateStamp (midnight 19732));
         sale 3 2 (NumText "ten") (DateStamp (midnight 19732)) ];
     payments_csv := [] |}.

(** The table written by a run that ends well (empty when it raises). *)
Definition table_of (files : RawData) : list AnalysisRecord :=
  match main files with
  | Ok out => out
  | Raise _ => []
  end.

(** ** The loader of the dashboard ([app/app.py])

    [load_data] reads [analysis_table.csv].  A row of that file is kept as
    its three date cells, its [is_paid] cell and the other columns, which
    [load_data] does not touch; the header tells whether there is an
    [is_paid] column (without one the [is_paid] cells mean nothing). *)

Record CsvRow (O : Type) : Type := {
  cr_txn_date : date_cell;
  cr_due_date : date_cell;
  cr_payment_date : date_cell;
  cr_is_paid : bool;
  cr_other : O
}.
Arguments cr_txn_date {O} _.
Arguments cr_due_date {O} _.
Arguments cr_payment_date {O} _.
Arguments cr_is_paid {O} _.
Arguments cr_other {O} _.

Record CsvFrame (O : Type) : Type := {
  has_is_paid : bool;
  csv_rows : list (CsvRow O)
}.
Arguments has_is_paid {O} _.
Arguments csv_rows {O} _.

Record DashRow (O : Type) : Type := {
  d_txn_date : datetime;
  d_due_date : datetime;
  d_payment_date : datetime;
  d_is_paid : bool;
  d_other : O
}.
Arguments d_txn_date {O} _.
Arguments d_due_date {O} _.
Arguments d_payment_date {O} _.
Arguments d_is_paid {O} _.
Arguments d_other {O} _.

Definition set_dash_dates {O} (has_column : bool) (row : CsvRow O)
    (dates : datetime * datetime * datetime) : DashRow O :=
  let '(txn_date, due_date, payment_date) := dates in
  {| d_txn_date := txn_date;
     d_due_date := due_date;
     d_payment_date := payment_date;
     d_is_paid := if has_column then cr_is_paid row else notna payment_date;
     d_other := cr_other row |}.

(** The three date columns are parsed with [errors="coerce"]; [is_paid] is
    computed from the parsed payment date when the column is not there. *)
Definition load_data {O} (csv : CsvFrame O) : result (list (DashRow O)) :=
  let rows := csv_rows csv in
  txn_date ← to_datetime ErrorsCoerce (cr_txn_date <$> rows);
  due_date ← to_datetime ErrorsCoerce (cr_due_date <$> rows);
  payment_date ← to_datetime ErrorsCoerce (cr_payment_date <$> rows);
  Ok (zip_with (set_dash_dates (has_is_paid csv)) rows
        (zip (zip txn_date due_date) payment_date)).

(** A date cell that [pd.to_datetime] accepts. *)
Definition clean_date (c : date_cell) : Prop := forall text, c <> DateBad text.

(** The date a cell holds once parsed leniently. *)
Definition coerced (c : date_cell) : datetime :=
  match c with
  | DateStamp ns => Some ns
  | DateEmpty | DateBad _ => None
  end.

(** A table file of the dashboard with a date that is no date and no
    [is_paid] column. *)
Definition dashboard_csv : CsvFrame Z :=
  {| has_is_paid := false;
     csv_rows :=
       [ {| cr_txn_date := DateStamp (midnight 19723);
            cr_due_date := DateStamp (midnight 19732);
            cr_payment_date := DateStamp (midnight 19737);
            cr_is_paid := false;
            cr_other := 1 |};
         {| cr_txn_date := DateBad "31/31/2024";
            cr_due_date := DateEmpty;
            cr_payment_date := DateBad "never";
            cr_is_paid := true;
            cr_other := 2 |} ] |}.

(** Files that do not share a key: no payment row and no customer row. *)
Definition lonely_files : RawData :=
  {| customers_csv := [];
     transactions_csv :=
       [ sale 1 1 (NumFloat (float_of_Z 120000)) (DateStamp (midnight 19732));
         sale 2 2 (NumFloat (float_of_Z 60000)) (DateStamp (midnight 19732));
         sale 1 1 (NumFloat (float_of_Z 120000)) (DateStamp (midnight 19732)) ];
     payments_csv := [] |}.

(** The sample files with the rows of each file in another order. *)
Definition sample_files_reordered : RawData :=
  {| customers_csv := reverse sample_customers;
     transactions_csv :=
       [ sale 2 9 (NumFloat (float_of_Z 1000)) (DateStamp (midnight 19732));
         sale 1 1 (NumFloat (float_of_Z 120000)) (DateStamp (midnight 19732));
         sale 4 1 (NumFloat (float_of_Z 150000)) (DateStamp (midnight 19732));
         sale 3 2 (NumFloat (float_of_Q (6000050 # 100)))
                  (DateStamp (midnight 19732)) ];
     payments_csv :=
       [ paid 3 4 (DateStamp (midnight 19731)) (float_of_Z 150000);
         paid 1 1 (DateStamp (midnight 19737)) (float_of_Z 118000);
         paid 2 3 (DateStamp (midnight 19730 + hours 12)) (float_of_Z 60000) ] |}.

(** * Properties *)

(** ** Comparisons of floats *)

Section FloatOrder.

Lemma float_ge_int_finite (q : Qc) (n : Z) :
  float_ge_int (FFin q) n = true <-> (Qc_of_Z n <= q)%Qc.
Proof.
  unfold float_ge_int, Qcle. simpl. apply Qle_bool_iff.
Qed.

Lemma float_ge_int_finite_false (q : Qc) (n : Z) :
  float_ge_int (FFin q) n = false <-> (q < Qc_of_Z n)%Qc.
Proof.
  rewrite Qclt_nge, <- float_ge_int_finite.
  destruct (float_ge_int (FFin q) n); split; congruence.
Qed.

Lemma float_ge_int_of_Z (z n : Z) :
  float_ge_int (float_of_Z z) n = (n <=? z).
Proof.
  unfold float_of_Z, float_ge_int, Qc_of_Z. simpl.
  apply eq_true_iff_eq. rewrite Qle_bool_iff, Z.leb_le.
  rewrite <- Zle_Qle. reflexivity.
Qed.

Lemma float_ge_int_nan (n : Z) : float_ge_int FNaN n = false.
Proof. reflexivity. Qed.

(** A threshold reached by [x] is reached by every float above [x]. *)
Lemma float_ge_int_mono (x y : pyfloat) (n : Z) :
  float_le x y = true -> float_ge_int x n = true -> float_ge_int y n = true.
Proof.
  destruct x as [| |p|], y as [| |q|]; simpl; try congruence.
  rewrite !Qle_bool_iff. intros Hpq Hnp. eapply Qle_trans; eassumption.
Qed.

End FloatOrder.

(** ** Deduplication *)

Section DropDuplicates.
Context {A : Type} `{EqDecision A}.
Implicit Types (x : A) (l seen : list A).

Lemma elem_of_drop_duplicates_from seen l x :
  x ∈ drop_duplicates_from seen l <-> x ∈ l /\ x ∉ seen.
Proof.
  revert seen. induction l as [|y l IH]; intros seen; simpl.
  - split; [intros H; inversion H | intros [H _]; inversion H].
  - destruct (decide (y ∈ seen)) as [Hin|Hnin].
    + rewrite IH, elem_of_cons. split; [tauto|].
      intros [[->|Hx] Hs]; [contradiction | tauto].
    + rewrite !elem_of_cons, IH, elem_of_cons.
      destruct (decide (x = y)) as [->|Hne]; tauto.
Qed.

Lemma NoDup_drop_duplicates_from seen l :
  NoDup (drop_duplicates_from seen l).
Proof.
  revert seen. induction l as [|y l IH]; intros seen; simpl.
  - constructor.
  - destruct (decide (y ∈ seen)); [apply IH|].
    constructor; [|apply IH].
    rewrite elem_of_drop_duplicates_from, elem_of_cons. tauto.
Qed.

Lemma drop_duplicates_from_NoDup seen l :
  NoDup l -> (forall x, x ∈ l -> x ∉ seen) ->
  drop_duplicates_from seen l = l.
Proof.
  revert seen. induction l as [|y l IH]; intros seen Hnd Hfresh; simpl.
  - reflexivity.
  - apply NoDup_cons in Hnd as [Hy Hnd].
    destruct (decide (y ∈ seen)) as [Hin|_].
    + exfalso. apply (Hfresh y); [left | assumption].
    + f_equal. apply IH; [assumption|].
      intros x Hx. rewrite elem_of_cons. intros [->|Hs]; [contradiction|].
      apply (Hfresh x); [by right | assumption].
Qed.

Lemma elem_of_drop_duplicates l x : x ∈ drop_duplicates l <-> x ∈ l.
Proof.
  unfold drop_duplicates. rewrite elem_of_drop_duplicates_from.
  split; [tauto|]. intros H. split; [assumption|]. apply not_elem_of_nil.
Qed.

Lemma NoDup_drop_duplicates l : NoDup (drop_duplicates l).
Proof. apply NoDup_drop_duplicates_from. Qed.

Lemma drop_duplicates_NoDup l : NoDup l -> drop_duplicates l = l.
Proof.
  intros H. apply drop_duplicates_from_NoDup; [assumption|].
  intros x _. apply not_elem_of_nil.
Qed.

Lemma drop_duplicates_idemp l :
  drop_duplicates (drop_duplicates l) = drop_duplicates l.
Proof. apply drop_duplicates_NoDup, NoDup_drop_duplicates. Qed.

Lemma drop_duplicates_Permutation l k :
  l ≡ₚ k -> drop_duplicates l ≡ₚ drop_duplicates k.
Proof.
  intros Hperm. apply NoDup_Permutation; try apply NoDup_drop_duplicates.
  intros x. rewrite !elem_of_drop_duplicates. by rewrite Hperm.
Qed.

(** The rows of a given kind that survive, when all rows of that kind in
    the frame are the same row. *)
Lemma filter_drop_duplicates_singleton (P : A -> Prop)
    `{forall x, Decision (P x)} l x0 :
  x0 ∈ l -> P x0 -> (forall x, x ∈ l -> P x -> x = x0) ->
  filter P (drop_duplicates l) = [x0].
Proof.
  intros Hin HP Huniq.
  assert (Hnd : NoDup (filter P (drop_duplicates l)))
    by apply NoDup_filter, NoDup_drop_duplicates.
  assert (Hall : forall x, x ∈ filter P (drop_duplicates l) <-> x = x0).
  { intros x. rewrite list_elem_of_filter, elem_of_drop_duplicates.
    split; [intros [? ?]; by apply Huniq | intros ->; tauto]. }
  destruct (filter P (drop_duplicates l)) as [|a [|b m]].
  - exfalso. eapply not_elem_of_nil, Hall. reflexivity.
  - f_equal. apply Hall. left.
  - exfalso. apply NoDup_cons in Hnd as [Hab _]. apply Hab.
    assert (a = x0) as -> by (apply Hall; left).
    assert (b = x0) as -> by (apply Hall; right; left).
    left.
Qed.

End DropDuplicates.

(** ** The risk rule *)

(** C1: [assign_risk_level] returns High when amount >= 100000 or
    delay_days >= 30, otherwise Medium when amount >= 50000 or
    delay_days >= 10, otherwise Low; the High test comes first.  Stated for
    all floats through the comparisons of the code, for finite values
    through the order of the rationals, and at the five sample points. *)
Theorem assign_risk_level_thresholds :
  (forall a d : pyfloat,
     (float_ge_int a 100000 = true \/ float_ge_int d 30 = true ->
      assign_risk_level a d = High) /\
     (float_ge_int a 100000 = false -> float_ge_int d 30 = false ->
      float_ge_int a 50000 = true \/ float_ge_int d 10 = true ->
      assign_risk_level a d = Medium) /\
     (float_ge_int a 100000 = false -> float_ge_int d 30 = false ->
      float_ge_int a 50000 = false -> float_ge_int d 10 = false ->
      assign_risk_level a d = Low)) /\
  (forall a d : Qc,
     (assign_risk_level (FFin a) (FFin d) = High <->
      (Qc_of_Z 100000 <= a \/ Qc_of_Z 30 <= d)%Qc) /\
     (assign_risk_level (FFin a) (FFin d) = Medium <->
      (a < Qc_of_Z 100000 /\ d < Qc_of_Z 30 /\
       (Qc_of_Z 50000 <= a \/ Qc_of_Z 10 <= d))%Qc) /\
     (assign_risk_level (FFin a) (FFin d) = Low <->
      (a < Qc_of_Z 50000 /\ d < Qc_of_Z 10)%Qc)) /\
  assign_risk_level (float_of_Z 100000) (float_of_Z 0) = High /\
  assign_risk_level (float_of_Z 99999) (float_of_Z 30) = High /\
  assign_risk_level (float_of_Z 50000) (float_of_Z 0) = Medium /\
  assign_risk_level (float_of_Z 49999) (float_of_Z 9) = Low /\
  assign_risk_level (float_of_Z 0) (float_of_Z 10) = Medium.
Proof.
  split; [|split].
  - intros a d. unfold assign_risk_level, HIGH_AMOUNT_THRESHOLD,
      HIGH_DELAY_THRESHOLD, MEDIUM_AMOUNT_THRESHOLD, MEDIUM_DELAY_THRESHOLD.
    repeat split.
    + intros [-> | ->]; [reflexivity | by rewrite orb_true_r].
    + intros -> -> [-> | ->]; [reflexivity | by rewrite orb_true_r].
    + by intros -> -> -> ->.
  - intros a d.
    assert (Hlt : forall q n,
      (50000 <= n)%Z -> (q < Qc_of_Z 50000)%Qc -> (q < Qc_of_Z n)%Qc).
    { intros q n Hn Hq. eapply Qclt_le_trans; [exact Hq|].
      unfold Qcle, Qc_of_Z. simpl. rewrite <- Zle_Qle. exact Hn. }
    assert (Hlt' : forall q n,
      (10 <= n)%Z -> (q < Qc_of_Z 10)%Qc -> (q < Qc_of_Z n)%Qc).
    { intros q n Hn Hq. eapply Qclt_le_trans; [exact Hq|].
      unfold Qcle, Qc_of_Z. simpl. rewrite <- Zle_Qle. exact Hn. }
    rewrite <- !float_ge_int_finite, <- !float_ge_int_finite_false.
    unfold assign_risk_level, HIGH_AMOUNT_THRESHOLD, HIGH_DELAY_THRESHOLD,
      MEDIUM_AMOUNT_THRESHOLD, MEDIUM_DELAY_THRESHOLD.
    pose proof (Hlt a 100000 ltac:(lia)) as Ha.
    pose proof (Hlt' d 30 ltac:(lia)) as Hd.
    rewrite <- !float_ge_int_finite_false in Ha, Hd.
    destruct (float_ge_int (FFin a) 100000), (float_ge_int (FFin d) 30),
             (float_ge_int (FFin a) 50000), (float_ge_int (FFin d) 10);
      simpl; intuition congruence.
  - repeat split; vm_compute; reflexivity.
Qed.

(** The three branches of the rule, each taken at one point. *)
Lemma assign_risk_level_thresholds_witness :
  assign_risk_level (float_of_Q (12000075 # 100)) (float_of_Z 30) = High /\
  assign_risk_level (float_of_Q (5000001 # 100)) FNaN = Medium /\
  assign_risk_level FNaN (float_of_Z 9) = Low.
Proof.
  destruct assign_risk_level_thresholds as [H _].
  split; [|split].
  - apply (H (float_of_Q (12000075 # 100)) (float_of_Z 30)).
    left. vm_compute. reflexivity.
  - apply (H (float_of_Q (5000001 # 100)) FNaN);
      [vm_compute; reflexivity | reflexivity |].
    left. vm_compute. reflexivity.
  - apply (H FNaN (float_of_Z 9)); vm_compute; reflexivity.
Defined.

(** C9: with Low < Medium < High, [assign_risk_level] is monotone in both
    arguments: a larger amount or a larger delay never lowers the tier. *)
Theorem assign_risk_level_monotone (a1 a2 d1 d2 : pyfloat) :
  float_le a1 a2 = true -> float_le d1 d2 = true ->
  risk_le (assign_risk_level a1 d1) (assign_risk_level a2 d2).
Proof.
  intros Ha Hd.
  pose proof (float_ge_int_mono a1 a2 HIGH_AMOUNT_THRESHOLD Ha) as HA.
  pose proof (float_ge_int_mono a1 a2 MEDIUM_AMOUNT_THRESHOLD Ha) as MA.
  pose proof (float_ge_int_mono d1 d2 HIGH_DELAY_THRESHOLD Hd) as HD.
  pose proof (float_ge_int_mono d1 d2 MEDIUM_DELAY_THRESHOLD Hd) as MD.
  unfold assign_risk_level, risk_le.
  destruct (float_ge_int a1 HIGH_AMOUNT_THRESHOLD);
    destruct (float_ge_int d1 HIGH_DELAY_THRESHOLD);
    destruct (float_ge_int a1 MEDIUM_AMOUNT_THRESHOLD);
    destruct (float_ge_int d1 MEDIUM_DELAY_THRESHOLD);
    try rewrite (HA eq_refl); try rewrite (HD eq_refl);
    try rewrite (MA eq_refl); try rewrite (MD eq_refl);
    simpl; rewrite ?orb_true_r; simpl;
    repeat match goal with
           | |- context [if ?b then _ else _] => destruct b; simpl
           end; lia.
Qed.

(** Raising the amount from 49999 to 75000.50 at a delay of nine days. *)
Lemma assign_risk_level_monotone_witness :
  risk_le (assign_risk_level (float_of_Z 49999) (float_of_Z 9))
          (assign_risk_level (float_of_Q (7500050 # 100)) (float_of_Z 9)).
Proof.
  apply assign_risk_level_monotone; vm_compute; reflexivity.
Defined.

(** ** Row-wise application *)

Section MapM.
Context {A B : Type} (f : A -> result B).

Lemma mapM_cons (a : A) (l : list A) :
  mapM f (a :: l) = f a ≫= fun b => mapM f l ≫= fun bs => Ok (b :: bs).
Proof. reflexivity. Qed.

Lemma mapM_Ok_Forall2 (l : list A) (bs : list B) :
  mapM f l = Ok bs -> Forall2 (fun a b => f a = Ok b) l bs.
Proof.
  revert bs. induction l as [|a l IH]; intros bs; simpl.
  - intros [= <-]. constructor.
  - destruct (f a) as [b|e] eqn:Hfa; simpl; [|discriminate].
    destruct (mapM f l) as [bs'|e] eqn:Hl; simpl; [|discriminate].
    intros [= <-]. constructor; [assumption | by apply IH].
Qed.

Lemma mapM_Ok_total (l : list A) :
  Forall (fun a => exists b, f a = Ok b) l -> exists bs, mapM f l = Ok bs.
Proof.
  induction 1 as [|a l [b Hb] _ [bs Hbs]]; simpl.
  - by eexists.
  - rewrite Hb; simpl. rewrite Hbs; simpl. by eexists.
Qed.

End MapM.

(** ** Left joins *)

Section MergeLeft.
Context {A B C : Type} (key_l : A -> Z) (key_r : B -> Z)
        (matched : A -> B -> C) (unmatched : A -> C).
Implicit Types (a : A) (b : B) (c : C).

Local Abbreviation expand := (merge_row key_l key_r matched unmatched).

Lemma merge_left_bind left right :
  merge_left key_l key_r matched unmatched left right
  = left ≫= expand right.
Proof. reflexivity. Qed.

Lemma elem_of_merge_row right a c :
  c ∈ expand right a <->
  (exists b, b ∈ right /\ key_r b = key_l a /\ c = matched a b) \/
  ((forall b, b ∈ right -> key_r b <> key_l a) /\ c = unmatched a).
Proof.
  unfold merge_row.
  destruct (filter (fun b => key_r b = key_l a) right) as [|b0 bs] eqn:Hf.
  - rewrite list_elem_of_singleton. split.
    + intros ->. right. split; [|reflexivity].
      intros b Hb Hk. eapply (filter_nil_not_elem_of _ _ b Hf); eauto.
    + intros [(b & Hb & Hk & _) | [_ ->]]; [|reflexivity].
      exfalso. eapply (filter_nil_not_elem_of _ _ b Hf); eauto.
  - rewrite list_elem_of_fmap. split.
    + intros (b & -> & Hb). left. exists b.
      rewrite <- Hf, list_elem_of_filter in Hb. tauto.
    + intros [(b & Hb & Hk & ->) | [Hno _]].
      * exists b. split; [reflexivity|].
        rewrite <- Hf, list_elem_of_filter. tauto.
      * exfalso. apply (Hno b0); [|].
        -- assert (Hb0 : b0 ∈ filter (λ b, key_r b = key_l a) right)
             by (rewrite Hf; left).
           rewrite list_elem_of_filter in Hb0. tauto.
        -- assert (Hb0 : b0 ∈ filter (λ b, key_r b = key_l a) right)
             by (rewrite Hf; left).
           rewrite list_elem_of_filter in Hb0. tauto.
Qed.

Lemma merge_row_nonempty right a : expand right a <> [].
Proof.
  unfold merge_row.
  by destruct (filter (fun b => key_r b = key_l a) right).
Qed.

(** A left row with at most one partner gives exactly one row. *)
Lemma merge_row_length_one right a :
  (length (filter (fun b => key_r b = key_l a) right) <= 1)%nat ->
  length (expand right a) = 1%nat.
Proof.
  unfold merge_row.
  destruct (filter (fun b => key_r b = key_l a) right) as [|b0 [|b1 bs]];
    simpl; intros; [reflexivity | reflexivity | lia].
Qed.

Lemma elem_of_merge_left left right c :
  c ∈ merge_left key_l key_r matched unmatched left right <->
  exists a, a ∈ left /\
    ((exists b, b ∈ right /\ key_r b = key_l a /\ c = matched a b) \/
     ((forall b, b ∈ right -> key_r b <> key_l a) /\ c = unmatched a)).
Proof.
  rewrite merge_left_bind, list_elem_of_bind.
  split; intros (a & H1 & H2); exists a.
  - by rewrite <- elem_of_merge_row.
  - by rewrite elem_of_merge_row.
Qed.

(** No left row is dropped. *)
Lemma merge_left_keeps left right a :
  a ∈ left ->
  exists c, c ∈ merge_left key_l key_r matched unmatched left right /\
            c ∈ expand right a.
Proof.
  intros Ha. destruct (expand right a) as [|c cs] eqn:Hc.
  - by destruct (merge_row_nonempty right a).
  - exists c. split; [|left].
    rewrite merge_left_bind, list_elem_of_bind. exists a.
    rewrite Hc. split; [left | assumption].
Qed.

(** Selecting joined rows by a property of their left row. *)
Lemma filter_merge_left (P : C -> Prop) (Q : A -> Prop)
    `{forall c, Decision (P c)} `{forall a, Decision (Q a)} left right :
  (forall a b, P (matched a b) <-> Q a) ->
  (forall a, P (unmatched a) <-> Q a) ->
  filter P (merge_left key_l key_r matched unmatched left right)
  = filter Q left ≫= expand right.
Proof.
  intros Hm Hu. rewrite merge_left_bind.
  induction left as [|a left IH]; [reflexivity|].
  rewrite bind_cons, filter_app, IH, filter_cons.
  assert (Hexp : forall c, c ∈ expand right a -> (P c <-> Q a)).
  { intros c. rewrite elem_of_merge_row.
    intros [(b & _ & _ & ->) | [_ ->]]; [apply Hm | apply Hu]. }
  destruct (decide (Q a)) as [HQ|HQ].
  - rewrite bind_cons. f_equal.
    induction (expand right a) as [|c cs IHc]; [reflexivity|].
    rewrite filter_cons. destruct (decide (P c)) as [_|HP].
    + f_equal. apply IHc. intros c' Hc'. apply Hexp. by right.
    + exfalso. apply HP, Hexp; [left | assumption].
  - replace (filter P (expand right a)) with (@nil C); [reflexivity|].
    symmetry. induction (expand right a) as [|c cs IHc]; [reflexivity|].
    rewrite filter_cons. destruct (decide (P c)) as [HP|_].
    + exfalso. apply HQ, (Hexp c); [left | assumption].
    + apply IHc. intros c' Hc'. apply Hexp. by right.
Qed.

End MergeLeft.

(** ** Generic facts on frames *)

Section Frames.
Context {A B : Type}.

Lemma filter_fmap (f : A -> B) (P : B -> Prop) `{forall b, Decision (P b)}
    (l : list A) :
  filter P (f <$> l) = f <$> filter (fun a => P (f a)) l.
Proof.
  induction l as [|a l IH]; [reflexivity|].
  rewrite fmap_cons, !filter_cons.
  destruct (decide (P (f a))); rewrite IH; reflexivity.
Qed.

Lemma filter_key_absent (k : B -> Z) (v : Z) (l : list B) :
  v ∉ k <$> l -> filter (fun b => k b = v) l = [].
Proof.
  induction l as [|b l IH]; [reflexivity|].
  rewrite fmap_cons, not_elem_of_cons, filter_cons. intros [Hne Hl].
  destruct (decide (k b = v)); [congruence | by apply IH].
Qed.

(** A key column without repetition gives every key at most one row. *)
Lemma filter_key_NoDup (k : B -> Z) (v : Z) (l : list B) :
  NoDup (k <$> l) -> (length (filter (fun b => k b = v) l) <= 1)%nat.
Proof.
  induction l as [|b l IH]; [simpl; lia|].
  rewrite fmap_cons, NoDup_cons, filter_cons. intros [Hb Hl].
  destruct (decide (k b = v)) as [<-|_]; [|by apply IH].
  rewrite filter_key_absent by assumption. simpl. lia.
Qed.

(** A relation that fixes a column of its right rows gives that column
    back. *)
Lemma Forall2_fmap_eq (f : B -> A) (R : A -> B -> Prop)
    (l : list A) (k : list B) :
  (forall a b, R a b -> f b = a) -> Forall2 R l k -> f <$> k = l.
Proof.
  intros Hf. induction 1 as [|a b l k Hab _ IH]; [reflexivity|].
  rewrite fmap_cons, IH. f_equal. by apply Hf.
Qed.

Lemma bind_fmap {C : Type} (f : A -> B) (g : B -> list C) (l : list A) :
  (f <$> l) ≫= g = l ≫= fun a => g (f a).
Proof.
  induction l as [|a l IH]; [reflexivity|].
  rewrite fmap_cons, !bind_cons, IH. reflexivity.
Qed.

End Frames.

Section MergeLeftOne.
Context {A B C : Type} (key_l : A -> Z) (key_r : B -> Z)
        (matched : A -> B -> C) (unmatched : A -> C) (proj : C -> A).
Hypothesis proj_matched : forall a b, proj (matched a b) = a.
Hypothesis proj_unmatched : forall a, proj (unmatched a) = a.

(** When no left row has two partners, the join has the left rows, once
    each and in their order. *)
Lemma merge_left_one_to_one (left : list A) (right : list B) :
  (forall a, a ∈ left ->
     (length (filter (fun b => key_r b = key_l a) right) <= 1)%nat) ->
  proj <$> merge_left key_l key_r matched unmatched left right = left.
Proof.
  unfold merge_left. induction left as [|a left IH]; intros Hone.
  - reflexivity.
  - rewrite bind_cons, fmap_app, IH
      by (intros a' Ha'; apply Hone; by right).
    specialize (Hone a ltac:(left)). unfold merge_row.
    destruct (filter (fun b => key_r b = key_l a) right) as [|b0 [|b1 bs]];
      simpl in Hone |- *; [| |lia].
    + by rewrite proj_unmatched.
    + by rewrite proj_matched.
Qed.

End MergeLeftOne.

(** ** The frames of one run *)

Section Run.

Lemma classify_row_Ok (e : Enriched) (r : AnalysisRecord) :
  classify_row e = Ok r ->
  a_row r = e /\
  exists a, amount (f_row (e_row e)) = NumFloat a /\
    risk_level r = assign_risk_level a (float_of_Z (delay_days (e_row e))).
Proof.
  unfold classify_row.
  destruct (amount (f_row (e_row e))) as [a|text]; simpl; [|discriminate].
  intros [= <-]. simpl. eauto.
Qed.

Lemma main_Ok_load files out :
  main files = Ok out ->
  exists customers transactions payments,
    load_raw_data files = Ok (customers, transactions, payments) /\
    mapM classify_row (enrich customers transactions payments) = Ok out.
Proof.
  unfold main. destruct (load_raw_data files) as [[[c t] p]|e]; simpl;
    [|discriminate].
  intros H. by exists c, t, p.
Qed.

Lemma main_loaded files customers transactions payments :
  load_raw_data files = Ok (customers, transactions, payments) ->
  main files = mapM classify_row (enrich customers transactions payments).
Proof. unfold main. by intros ->. Qed.

Lemma a_row_table (e : list Enriched) (out : list AnalysisRecord) :
  mapM classify_row e = Ok out -> a_row <$> out = e.
Proof.
  intros H%mapM_Ok_Forall2. eapply Forall2_fmap_eq; [|exact H].
  intros a b Hab. by apply classify_row_Ok in Hab as [? _].
Qed.

Lemma elem_of_table (e : list Enriched) (out : list AnalysisRecord) r :
  mapM classify_row e = Ok out -> r ∈ out ->
  a_row r ∈ e /\ classify_row (a_row r) = Ok r.
Proof.
  intros H%mapM_Ok_Forall2 Hr.
  induction H as [|a b l k Hab _ IH]; [inversion Hr|].
  apply elem_of_cons in Hr as [->|Hr].
  - pose proof (classify_row_Ok _ _ Hab) as [-> _].
    split; [left | assumption].
  - destruct (IH Hr) as [? ?]. split; [by right | assumption].
Qed.

(** Where a row of the enriched frame comes from: a row of the first
    join that survived deduplication, and the customer join applied to
    it. *)
Lemma elem_of_enrich customers transactions payments (e : Enriched) :
  e ∈ enrich customers transactions payments <->
  exists (x : TxnPay) (e0 : Enriched),
    x ∈ merge_payments transactions payments /\
    e0 ∈ merge_row (fun r => customer_id (f_row r)) c_customer_id
           with_customer without_customer customers (add_features x) /\
    e = fill_unknown e0.
Proof.
  unfold enrich, merge_customers, merge_left.
  rewrite list_elem_of_fmap. split.
  - intros (e0 & -> & He0). apply list_elem_of_bind in He0 as (f & Hf & He0).
    apply list_elem_of_fmap in He0 as (x & -> & Hx).
    rewrite elem_of_drop_duplicates in Hx. eauto.
  - intros (x & e0 & Hx & He0 & ->). exists e0. split; [reflexivity|].
    apply list_elem_of_bind. exists (add_features x). split; [assumption|].
    apply list_elem_of_fmap. exists x. split; [reflexivity|].
    by apply elem_of_drop_duplicates.
Qed.

Lemma e_row_merge_row customers (f : Featured) (e0 : Enriched) :
  e0 ∈ merge_row (fun r => customer_id (f_row r)) c_customer_id
         with_customer without_customer customers f ->
  e_row e0 = f.
Proof.
  rewrite elem_of_merge_row.
  by intros [(c & _ & _ & ->) | [_ ->]].
Qed.

(** Every row of the table is built from a row of the first join. *)
Lemma table_row_origin files customers transactions payments out r :
  load_raw_data files = Ok (customers, transactions, payments) ->
  main files = Ok out -> r ∈ out ->
  exists e0,
    a_txnpay r ∈ merge_payments transactions payments /\
    e0 ∈ merge_row (fun r => customer_id (f_row r)) c_customer_id
           with_customer without_customer customers
           (add_features (a_txnpay r)) /\
    a_row r = fill_unknown e0 /\
    e_row (a_row r) = add_features (a_txnpay r) /\
    classify_row (a_row r) = Ok r.
Proof.
  intros Hload Hmain Hr. rewrite (main_loaded _ _ _ _ Hload) in Hmain.
  destruct (elem_of_table _ _ _ Hmain Hr) as [He Hc].
  apply elem_of_enrich in He as (x & e0 & Hx & He0 & Heq).
  pose proof (e_row_merge_row _ _ _ He0) as Hrow.
  assert (Hx' : a_txnpay r = x).
  { unfold a_txnpay. rewrite Heq. simpl. by rewrite Hrow. }
  rewrite Hx'. exists e0. repeat split; try assumption.
  rewrite Heq. simpl. exact Hrow.
Qed.

Lemma load_raw_data_customers files customers transactions payments :
  load_raw_data files = Ok (customers, transactions, payments) ->
  customers = customers_csv files.
Proof.
  unfold load_raw_data.
  destruct (to_datetime ErrorsRaise (rt_txn_date <$> _)) as [d1|]; simpl;
    [|discriminate].
  destruct (to_datetime ErrorsRaise (rt_due_date <$> _)) as [d2|]; simpl;
    [|discriminate].
  destruct (to_datetime ErrorsCoerce _) as [d3|]; simpl; [|discriminate].
  by intros [= <- _ _].
Qed.

(** The derived columns of a row of the table, read off its own cells. *)
Lemma delay_days_origin files out r :
  main files = Ok out -> r ∈ out ->
  a_is_paid r = notna (payment_date (a_txnpay r)) /\
  a_delay_days r
    = fillna 0 (dt_days (sub_datetime (payment_date (a_txnpay r))
                                      (due_date (a_txnpay r)))) /\
  exists a, amount (a_txnpay r) = NumFloat a /\
    risk_level r = assign_risk_level a (float_of_Z (a_delay_days r)).
Proof.
  intros Hmain Hr.
  destruct (main_Ok_load _ _ Hmain) as (c & t & p & Hload & _).
  destruct (table_row_origin _ _ _ _ _ _ Hload Hmain Hr)
    as (e0 & _ & _ & _ & Hrow & Hclass).
  unfold a_is_paid, a_delay_days. rewrite Hrow. simpl.
  split; [reflexivity|]. split; [reflexivity|].
  apply classify_row_Ok in Hclass as (_ & a & Ha & Hrisk).
  exists a. split; [exact Ha|]. rewrite Hrisk, Hrow. reflexivity.
Qed.

End Run.

(** ** Derived columns *)

(** C2, with the case of a missing due date made explicit: a row without
    payment date has [is_paid = False] and [delay_days = 0], whatever its
    due date; a row with a payment date has [is_paid = True], and its
    [delay_days] is the difference payment date minus due date in whole
    days (rounded down) when the due date is present, and 0 when the due
    date is missing. *)
Theorem delay_days_policy files out r :
  main files = Ok out -> r ∈ out ->
  (payment_date (a_txnpay r) = None ->
   a_is_paid r = false /\ a_delay_days r = 0) /\
  (forall p, payment_date (a_txnpay r) = Some p ->
     a_is_paid r = true /\
     (forall d, due_date (a_txnpay r) = Some d ->
        a_delay_days r = (p - d) / NS_PER_DAY) /\
     (due_date (a_txnpay r) = None -> a_delay_days r = 0)).
Proof.
  intros Hmain Hr.
  destruct (main_Ok_load _ _ Hmain) as (c & t & p & Hload & _).
  destruct (table_row_origin _ _ _ _ _ _ Hload Hmain Hr)
    as (e0 & _ & _ & _ & Hrow & _).
  unfold a_is_paid, a_delay_days. rewrite Hrow. simpl.
  split.
  - intros ->. simpl. split; reflexivity.
  - intros p0 ->. simpl. split; [reflexivity|]. split.
    + intros d ->. reflexivity.
    + intros ->. reflexivity.
Qed.

(** The late payment and the unpaid transaction of the sample files. *)
Lemma delay_days_policy_witness :
  exists r1 r2,
    r1 ∈ table_of sample_files /\ r2 ∈ table_of sample_files /\
    txn_id (a_txnpay r1) = 1 /\ a_is_paid r1 = true /\ a_delay_days r1 = 5 /\
    txn_id (a_txnpay r2) = 2 /\ a_is_paid r2 = false /\ a_delay_days r2 = 0.
Proof.
  assert (Hrun : main sample_files = Ok (table_of sample_files))
    by (vm_compute; reflexivity).
  eexists. eexists.
  split; [left|]. split; [right; left|].
  split; [reflexivity|].
  assert (H1 := delay_days_policy sample_files (table_of sample_files) _
                  Hrun (list_elem_of_here _ _)).
  assert (H2 := delay_days_policy sample_files (table_of sample_files) _
                  Hrun (list_elem_of_further _ _ _ (list_elem_of_here _ _))).
  destruct H1 as [_ H1]. destruct H2 as [H2 _].
  destruct (H1 (midnight 19737) eq_refl) as (Hp & Hd & _).
  destruct (H2 eq_refl) as (Hu & Hz).
  split; [exact Hp|]. split; [exact (Hd (midnight 19732) eq_refl)|].
  split; [reflexivity|]. split; [exact Hu | exact Hz].
Defined.

(** C2 as the specification words it fails on a paid row whose due date is
    missing: [payment_date - due_date] is then NaT, it has no whole days,
    and [fillna(0)] writes 0. *)
Lemma delay_days_paid_without_due_date :
  (exists r,
     main no_due_date_files = Ok [r] /\
     payment_date (a_txnpay r) = Some (midnight 19737) /\
     due_date (a_txnpay r) = None /\
     a_is_paid r = true /\
     dt_days (sub_datetime (payment_date (a_txnpay r)) (due_date (a_txnpay r)))
       = None /\
     a_delay_days r = 0) /\
  ~ (forall files out r,
       main files = Ok out -> r ∈ out ->
       (payment_date (a_txnpay r) = None ->
        a_is_paid r = false /\ a_delay_days r = 0) /\
       (payment_date (a_txnpay r) <> None ->
        a_is_paid r = true /\
        dt_days (sub_datetime (payment_date (a_txnpay r))
                              (due_date (a_txnpay r)))
          = Some (a_delay_days r))).
Proof.
  assert (Hrun : main no_due_date_files = Ok (table_of no_due_date_files))
    by (vm_compute; reflexivity).
  split.
  - eexists. split; [exact Hrun|]. repeat split.
  - intros H.
    destruct (H no_due_date_files _ _ Hrun (list_elem_of_here _ _)) as [_ H2].
    destruct H2 as [_ H2]; [discriminate|]. discriminate H2.
Qed.

(** C10: a paid row whose payment date is strictly before its due date
    gets a strictly negative [delay_days] (the zero of [fillna] is only
    written where the difference is missing), and its tier is then decided
    by the amount thresholds alone, so it can still be High or Medium. *)
Theorem early_payment_negative_delay :
  (forall files out r p d,
     main files = Ok out -> r ∈ out ->
     payment_date (a_txnpay r) = Some p -> due_date (a_txnpay r) = Some d ->
     p < d ->
     a_is_paid r = true /\
     a_delay_days r = (p - d) / NS_PER_DAY /\
     a_delay_days r < 0 /\
     exists a, amount (a_txnpay r) = NumFloat a /\
       risk_level r = if float_ge_int a 100000 then High
                      else if float_ge_int a 50000 then Medium
                      else Low) /\
  (exists out r, main sample_files = Ok out /\ r ∈ out /\
     a_delay_days r < 0 /\ risk_level r = High) /\
  (exists out r, main sample_files = Ok out /\ r ∈ out /\
     a_delay_days r < 0 /\ risk_level r = Medium).
Proof.
  split; [|split].
  - intros files out r p d Hmain Hr Hp Hd Hlt.
    destruct (delay_days_origin files out r Hmain Hr) as (Hpaid & Hdelay & Hrisk).
    rewrite Hp, Hd in Hdelay. simpl in Hdelay.
    assert (Hneg : a_delay_days r < 0).
    { rewrite Hdelay. apply Z.div_lt_upper_bound; unfold NS_PER_DAY; lia. }
    split; [by rewrite Hpaid, Hp|]. split; [exact Hdelay|].
    split; [exact Hneg|].
    destruct Hrisk as (a & Ha & Hrisk). exists a. split; [exact Ha|].
    rewrite Hrisk. unfold assign_risk_level, HIGH_AMOUNT_THRESHOLD,
      HIGH_DELAY_THRESHOLD, MEDIUM_AMOUNT_THRESHOLD, MEDIUM_DELAY_THRESHOLD.
    rewrite !float_ge_int_of_Z.
    replace (30 <=? a_delay_days r) with false by (symmetry; apply Z.leb_gt; lia).
    replace (10 <=? a_delay_days r) with false by (symmetry; apply Z.leb_gt; lia).
    by rewrite !orb_false_r.
  - exists (table_of sample_files). eexists.
    split; [vm_compute; reflexivity|].
    split; [do 3 right; left|]. split; reflexivity.
  - exists (table_of sample_files). eexists.
    split; [vm_compute; reflexivity|].
    split; [do 2 right; left|]. split; reflexivity.
Qed.

(** Transaction 3 of the sample files, paid a day and a half early. *)
Lemma early_payment_negative_delay_witness :
  exists r, r ∈ table_of sample_files /\
    txn_id (a_txnpay r) = 3 /\ a_is_paid r = true /\
    a_delay_days r = -2 /\ a_delay_days r < 0 /\ risk_level r = Medium.
Proof.
  assert (Hrun : main sample_files = Ok (table_of sample_files))
    by (vm_compute; reflexivity).
  eexists. split; [do 2 right; left|]. split; [reflexivity|].
  destruct early_payment_negative_delay as [H _].
  destruct (H sample_files (table_of sample_files) _
              (midnight 19730 + hours 12) (midnight 19732) Hrun
              (list_elem_of_further _ _ _
                 (list_elem_of_further _ _ _ (list_elem_of_here _ _)))
              eq_refl eq_refl ltac:(vm_compute; reflexivity))
    as (Hpaid & Hdays & Hneg & _).
  split; [exact Hpaid|]. split; [exact Hdays|]. split; [exact Hneg|].
  reflexivity.
Defined.

(** ** Customer attributes *)

(** C5: in every row of the table [sector] and [country] are present, and
    they are "Unknown" when no customer row has the row's customer id. *)
Theorem sector_country_never_missing files out r :
  main files = Ok out -> r ∈ out ->
  (sector (a_row r) <> None /\ country (a_row r) <> None) /\
  ((forall c, c ∈ customers_csv files ->
      c_customer_id c <> customer_id (a_txnpay r)) ->
   sector (a_row r) = Some "Unknown"%string /\
   country (a_row r) = Some "Unknown"%string).
Proof.
  intros Hmain Hr.
  destruct (main_Ok_load _ _ Hmain) as (c & t & p & Hload & _).
  destruct (table_row_origin _ _ _ _ _ _ Hload Hmain Hr)
    as (e0 & _ & He0 & Hrow & _ & _).
  rewrite Hrow. simpl. split; [split; discriminate|].
  intros Hnone. rewrite (load_raw_data_customers _ _ _ _ Hload) in He0.
  apply elem_of_merge_row in He0 as [(c0 & Hc0 & Hkey & _) | [_ ->]].
  - exfalso. apply (Hnone c0 Hc0). exact Hkey.
  - split; reflexivity.
Qed.

(** Transaction 2 of the sample files, whose customer 9 is in no row of
    the customer file. *)
Lemma sector_country_never_missing_witness :
  exists r, r ∈ table_of sample_files /\
    txn_id (a_txnpay r) = 2 /\ customer_id (a_txnpay r) = 9 /\
    sector (a_row r) = Some "Unknown"%string /\
    country (a_row r) = Some "Unknown"%string.
Proof.
  assert (Hrun : main sample_files = Ok (table_of sample_files))
    by (vm_compute; reflexivity).
  eexists. split; [right; left|]. split; [reflexivity|].
  split; [reflexivity|].
  apply (sector_country_never_missing sample_files (table_of sample_files) _
           Hrun (list_elem_of_further _ _ _ (list_elem_of_here _ _))).
  intros c Hc. vm_compute in Hc.
  apply elem_of_cons in Hc as [->|Hc]; [discriminate|].
  apply elem_of_cons in Hc as [->|Hc]; [discriminate|].
  inversion Hc.
Defined.

(** ** Loading *)

Section ToDatetime.

Lemma to_datetime_coerce_total (column : list date_cell) :
  exists dates, to_datetime ErrorsCoerce column = Ok dates.
Proof.
  apply mapM_Ok_total, Forall_forall. intros c _.
  destruct c; simpl; by eexists.
Qed.

Lemma to_datetime_raise_bad (column : list date_cell) (text : string) :
  DateBad text ∈ column ->
  exists text', to_datetime ErrorsRaise column = Raise (ToDatetimeError text').
Proof.
  unfold to_datetime. induction column as [|c column IH]; intros Hin.
  - inversion Hin.
  - rewrite mapM_cons. destruct c as [|ns|text0]; simpl.
    + apply elem_of_cons in Hin as [[=]|Hin].
      destruct (IH Hin) as [text' ->]. by exists text'.
    + apply elem_of_cons in Hin as [[=]|Hin].
      destruct (IH Hin) as [text' ->]. by exists text'.
    + by exists text0.
Qed.

End ToDatetime.

(** C6, on the code: a text that is no date aborts [load_raw_data] when it
    stands in [txn_date] or in [due_date]; only in [payment_date] is it
    turned into the missing marker. *)
Theorem load_raw_data_malformed_dates :
  load_raw_data bad_txn_date_files = Raise (ToDatetimeError "not-a-date") /\
  main bad_txn_date_files = Raise (ToDatetimeError "not-a-date") /\
  load_raw_data bad_due_date_files = Raise (ToDatetimeError "2024-13-45") /\
  main bad_due_date_files = Raise (ToDatetimeError "2024-13-45") /\
  (exists customers transactions payments,
     load_raw_data bad_payment_date_files
       = Ok (customers, transactions, payments) /\
     p_payment_date <$> payments = [None]) /\
  (exists r, main bad_payment_date_files = Ok [r] /\
     payment_date (a_txnpay r) = None /\ a_is_paid r = false) /\
  (forall files text,
     DateBad text ∈ rt_txn_date <$> transactions_csv files \/
     DateBad text ∈ rt_due_date <$> transactions_csv files ->
     exists text', load_raw_data files = Raise (ToDatetimeError text')) /\
  (forall column, exists dates, to_datetime ErrorsCoerce column = Ok dates).
Proof.
  repeat split; try (vm_compute; reflexivity).
  - do 3 eexists. split; [vm_compute; reflexivity | reflexivity].
  - eexists. split; [vm_compute; reflexivity|]. split; reflexivity.
  - intros files text Hbad. unfold load_raw_data.
    destruct (to_datetime ErrorsRaise (rt_txn_date <$> _))
      as [d1|[text1|text1]] eqn:H1; simpl.
    + destruct Hbad as [Hbad|Hbad].
      * apply to_datetime_raise_bad in Hbad as [text' Hbad]. congruence.
      * apply to_datetime_raise_bad in Hbad as [text' ->]. by exists text'.
    + by exists text1.
    + exfalso. clear Hbad. revert H1. unfold to_datetime.
      generalize (rt_txn_date <$> transactions_csv files). intros column.
      revert text1. induction column as [|c column IH]; intros text1;
        [discriminate|].
      rewrite mapM_cons.
      destruct c as [|ns|text0]; simpl; try discriminate;
        destruct (mapM _ column) as [ds|[t|t]] eqn:Hc; simpl;
        try discriminate; intros [= <-]; by eapply IH.
  - apply to_datetime_coerce_total.
Qed.

(** The file with a due date that is no date. *)
Lemma load_raw_data_malformed_dates_witness :
  exists text, load_raw_data bad_due_date_files = Raise (ToDatetimeError text).
Proof.
  destruct load_raw_data_malformed_dates as (_ & _ & _ & _ & _ & _ & H & _).
  apply (H bad_due_date_files "2024-13-45"%string).
  right. left.
Defined.

(** ** Deduplication, on any frame *)

(** C8: dropping duplicate rows twice gives the same rows, and as many, as
    dropping them once; and on a frame with its rows in another order it
    gives the same rows, up to their order. *)
Theorem drop_duplicates_idempotent_order_independent
    {A : Type} `{EqDecision A} (l k : list A) :
  drop_duplicates (drop_duplicates l) = drop_duplicates l /\
  length (drop_duplicates (drop_duplicates l)) = length (drop_duplicates l) /\
  (l ≡ₚ k -> drop_duplicates l ≡ₚ drop_duplicates k).
Proof.
  split; [apply drop_duplicates_idemp|].
  split; [by rewrite drop_duplicates_idemp|].
  apply drop_duplicates_Permutation.
Qed.

(** Two orders of the same four rows. *)
Lemma drop_duplicates_idempotent_order_independent_witness :
  drop_duplicates [3; 1; 3; 2] ≡ₚ drop_duplicates [1; 3; 2; 3].
Proof.
  apply (drop_duplicates_idempotent_order_independent [3; 1; 3; 2] [1; 3; 2; 3]).
  etrans; [apply perm_swap|]. do 2 apply perm_skip. apply perm_swap.
Defined.

(** ** Rows of the table and rows of the input *)

Section Joins.
Context (files : RawData) (customers : list Customer)
        (transactions : list Transaction) (payments : list Payment)
        (out : list AnalysisRecord).
Hypothesis loaded :
  load_raw_data files = Ok (customers, transactions, payments).
Hypothesis emitted : main files = Ok out.

Local Abbreviation payments_of :=
  (merge_row t_txn_id p_txn_id with_payment without_payment payments).
Local Abbreviation customer_of :=
  (merge_row (fun r => customer_id (f_row r)) c_customer_id
             with_customer without_customer customers).

Lemma table_enrich : a_row <$> out = enrich customers transactions payments.
Proof.
  apply a_row_table. by rewrite <- (main_loaded _ _ _ _ loaded).
Qed.

Lemma tp_txn_payments_of (t : Transaction) (x : TxnPay) :
  x ∈ payments_of t -> tp_txn x = t.
Proof.
  rewrite elem_of_merge_row. by intros [(b & _ & _ & ->) | [_ ->]].
Qed.

Lemma elem_of_merge_payments (x : TxnPay) :
  x ∈ merge_payments transactions payments <->
  tp_txn x ∈ transactions /\ x ∈ payments_of (tp_txn x).
Proof.
  unfold merge_payments, merge_left. rewrite list_elem_of_bind. split.
  - intros (t & Hx & Ht). by rewrite (tp_txn_payments_of _ _ Hx).
  - intros [Ht Hx]. eauto.
Qed.

(** Without customer ids written twice, the customer join keeps the frame
    row for row. *)
Lemma a_txnpay_table :
  NoDup (c_customer_id <$> customers) ->
  a_txnpay <$> out = drop_duplicates (merge_payments transactions payments).
Proof.
  intros Hnd.
  assert (Hcomp : a_txnpay <$> out
                  = f_row <$> (e_row <$> (a_row <$> out))).
  { rewrite <- !list_fmap_compose. reflexivity. }
  rewrite Hcomp, table_enrich. unfold enrich.
  rewrite <- (list_fmap_compose fill_unknown e_row).
  change (e_row ∘ fill_unknown) with e_row.
  unfold merge_customers.
  rewrite (merge_left_one_to_one _ _ _ _ e_row)
    by (reflexivity || (intros; by apply filter_key_NoDup)).
  rewrite <- list_fmap_compose.
  change (f_row ∘ add_features) with (@id TxnPay). apply list_fmap_id.
Qed.

(** How often a transaction row stands in the table: as often as the
    customer join repeats each of its rows of the deduplicated first join. *)
Lemma rows_of_transaction (t : Transaction) :
  length (filter (fun r => a_txn r = t) out)
  = length (filter (fun x => tp_txn x = t)
              (drop_duplicates (merge_payments transactions payments))
            ≫= fun x => customer_of (add_features x)).
Proof.
  transitivity
    (length (filter (fun e => tp_txn (f_row (e_row e)) = t) (a_row <$> out))).
  { rewrite filter_fmap, length_fmap. reflexivity. }
  rewrite table_enrich. unfold enrich.
  rewrite filter_fmap, length_fmap.
  change (fun a => tp_txn (f_row (e_row (fill_unknown a))) = t)
    with (fun a => tp_txn (f_row (e_row a)) = t).
  unfold merge_customers.
  rewrite (filter_merge_left _ _ _ _ _ (fun f => tp_txn (f_row f) = t))
    by reflexivity.
  rewrite filter_fmap.
  change (fun a => tp_txn (f_row (add_features a)) = t)
    with (fun a => tp_txn a = t).
  rewrite bind_fmap. reflexivity.
Qed.

End Joins.

(** ** Uniqueness of transaction ids *)

(** C3, as far as it holds: after [drop_duplicates] no two rows of the
    joined frame are equal in all columns; and the transaction ids of the
    table are pairwise distinct when transaction rows with one id are equal
    rows, payment rows of one transaction are equal rows, and no customer
    id is written twice. *)
Theorem txn_id_unique_after_dedup files customers transactions payments out :
  load_raw_data files = Ok (customers, transactions, payments) ->
  main files = Ok out ->
  NoDup (drop_duplicates (merge_payments transactions payments)) /\
  ((forall t1 t2, t1 ∈ transactions -> t2 ∈ transactions ->
      t_txn_id t1 = t_txn_id t2 -> t1 = t2) ->
   (forall p1 p2, p1 ∈ payments -> p2 ∈ payments ->
      p_txn_id p1 = p_txn_id p2 -> p1 = p2) ->
   NoDup (c_customer_id <$> customers) ->
   NoDup ((fun r => txn_id (a_txnpay r)) <$> out)).
Proof.
  intros Hload Hmain. split; [apply NoDup_drop_duplicates|].
  intros Htxn Hpay Hcust.
  change (fun r => txn_id (a_txnpay r)) with (txn_id ∘ a_txnpay).
  rewrite list_fmap_compose,
    (a_txnpay_table _ _ _ _ _ Hload Hmain Hcust).
  apply NoDup_fmap_2_strong; [|apply NoDup_drop_duplicates].
  intros x y Hx Hy Hid.
  rewrite elem_of_drop_duplicates, elem_of_merge_payments in Hx, Hy.
  destruct Hx as [Htx Hx], Hy as [Hty Hy].
  assert (Heq : tp_txn x = tp_txn y) by (by apply Htxn).
  rewrite <- Heq in Hy. clear Heq Hty Hid.
  apply elem_of_merge_row in Hx as [(b & Hb & Hkb & ->) | [Hno ->]];
    apply elem_of_merge_row in Hy as [(b' & Hb' & Hkb' & ->) | [Hno' ->]].
  - f_equal. apply Hpay; congruence.
  - destruct (Hno' b Hb Hkb).
  - destruct (Hno b' Hb' Hkb').
  - reflexivity.
Qed.

(** A transaction row written twice with one payment row: one row is
    left of it. *)
Lemma txn_id_unique_after_dedup_witness :
  exists out, main repeated_row_files = Ok out /\
    (fun r => txn_id (a_txnpay r)) <$> out = [1; 2] /\
    NoDup ((fun r => txn_id (a_txnpay r)) <$> out).
Proof.
  exists (table_of repeated_row_files).
  assert (Hrun : main repeated_row_files = Ok (table_of repeated_row_files))
    by (vm_compute; reflexivity).
  split; [exact Hrun|]. split; [reflexivity|].
  refine (proj2 (txn_id_unique_after_dedup repeated_row_files
                   _ _ _ _ eq_refl Hrun) _ _ _).
  - intros t1 t2 H1 H2.
    repeat (apply elem_of_cons in H1 as [->|H1]);
      try (by inversion H1);
      repeat (apply elem_of_cons in H2 as [->|H2]);
      try (by inversion H2);
      (reflexivity || (intros Hid; vm_compute in Hid; discriminate Hid)
       || (intros _; reflexivity)).
  - intros p1 p2 H1 H2.
    repeat (apply elem_of_cons in H1 as [->|H1]); try (by inversion H1).
    repeat (apply elem_of_cons in H2 as [->|H2]); try (by inversion H2).
    reflexivity.
  - vm_compute. repeat constructor; rewrite ?elem_of_cons;
      try (intros [H|H]; [discriminate H | inversion H]);
      try (intros H; inversion H).
Defined.

(** C3 as the specification words it fails on the files of the data
    generator, where a transaction row written twice brings two payment
    rows with different payment ids: both joined rows survive. *)
Lemma txn_id_not_unique_after_dedup :
  (exists r1 r2,
     main duplicated_files = Ok [r1; r2] /\
     r1 <> r2 /\
     txn_id (a_txnpay r1) = 1 /\ txn_id (a_txnpay r2) = 1 /\
     payment_id (a_txnpay r1) = Some 1 /\
     payment_id (a_txnpay r2) = Some 2) /\
  ~ (forall files out,
       main files = Ok out -> NoDup ((fun r => txn_id (a_txnpay r)) <$> out)).
Proof.
  assert (Hrun : main duplicated_files = Ok (table_of duplicated_files))
    by (vm_compute; reflexivity).
  split.
  - do 2 eexists. split; [exact Hrun|].
    split; [intros [=]|]. repeat split.
  - intros H. specialize (H _ _ Hrun).
    apply NoDup_cons in H as [H _]. apply H. left.
Qed.

(** ** Completeness of the joins *)

(** C4, as far as it holds: the left joins drop no transaction row, every
    row of [transactions] stands in the table at least once; and it stands
    there exactly once when at most one payment row has its transaction id
    and at most one customer row has its customer id. *)
Theorem join_completeness files customers transactions payments out t :
  load_raw_data files = Ok (customers, transactions, payments) ->
  main files = Ok out ->
  t ∈ transactions ->
  (exists r, r ∈ out /\ a_txn r = t) /\
  ((length (filter (fun p => p_txn_id p = t_txn_id t) payments) <= 1)%nat ->
   (length (filter (fun c => c_customer_id c = t_customer_id t) customers)
      <= 1)%nat ->
   length (filter (fun r => a_txn r = t) out) = 1%nat).
Proof.
  intros Hload Hmain Ht.
  destruct (merge_left_keeps t_txn_id p_txn_id with_payment without_payment
              transactions payments t Ht) as (x & Hx & Hxt).
  pose proof (tp_txn_payments_of _ _ _ Hxt) as Htx.
  split.
  - assert (Hf : add_features x ∈ add_features <$>
        drop_duplicates (merge_payments transactions payments)).
    { apply list_elem_of_fmap_2. by apply elem_of_drop_duplicates. }
    destruct (merge_left_keeps (fun r => customer_id (f_row r)) c_customer_id
                with_customer without_customer _ customers _ Hf)
      as (e & He & Hef).
    assert (He' : fill_unknown e ∈ a_row <$> out).
    { rewrite (table_enrich _ _ _ _ _ Hload Hmain). unfold enrich.
      by apply list_elem_of_fmap_2. }
    apply list_elem_of_fmap in He' as (r & Hr & Hin).
    exists r. split; [exact Hin|].
    unfold a_txn, a_txnpay. rewrite <- Hr. simpl.
    by rewrite (e_row_merge_row _ _ _ Hef).
  - intros Hpay Hcust.
    rewrite (rows_of_transaction _ _ _ _ _ Hload Hmain).
    pose proof (merge_row_length_one t_txn_id p_txn_id with_payment
                  without_payment payments t Hpay) as Hone.
    rewrite (filter_drop_duplicates_singleton (fun x => tp_txn x = t) _ x).
    + rewrite bind_singleton. apply merge_row_length_one.
      simpl. unfold customer_id. rewrite Htx. exact Hcust.
    + exact Hx.
    + exact Htx.
    + intros y Hy Hyt. apply elem_of_merge_payments in Hy as [_ Hy].
      rewrite Hyt in Hy.
      destruct (merge_row t_txn_id p_txn_id with_payment without_payment
                  payments t) as [|z [|z' zs]]; simpl in Hone; try lia.
      apply list_elem_of_singleton in Hy, Hxt. congruence.
Qed.

(** The unpaid transaction of the sample files, without payment row and
    without customer row. *)
Lemma join_completeness_witness :
  exists out t,
    main sample_files = Ok out /\
    t_txn_id t = 2 /\
    (exists r, r ∈ out /\ a_txn r = t) /\
    length (filter (fun r => a_txn r = t) out) = 1%nat.
Proof.
  exists (table_of sample_files).
  assert (Hrun : main sample_files = Ok (table_of sample_files))
    by (vm_compute; reflexivity).
  eexists. split; [exact Hrun|].
  refine ((fun H => conj _ (conj (proj1 H) (proj2 H _ _)))
            (join_completeness sample_files _ _ _ _ _ eq_refl Hrun
               (list_elem_of_further _ _ _ (list_elem_of_here _ _)))).
  - reflexivity.
  - vm_compute. lia.
  - vm_compute. lia.
Defined.

(** C4 as the specification words it fails on a transaction with two
    payment rows: the left join writes the transaction row once per
    payment row, and the two joined rows differ, so both stay. *)
Lemma join_multiplies_rows :
  (exists customers t payments r1 r2,
     load_raw_data two_payments_files = Ok (customers, [t], payments) /\
     main two_payments_files = Ok [r1; r2] /\
     a_txn r1 = t /\ a_txn r2 = t /\
     length (filter (fun r => a_txn r = t) [r1; r2]) = 2%nat) /\
  ~ (forall files customers transactions payments out t,
       load_raw_data files = Ok (customers, transactions, payments) ->
       main files = Ok out ->
       t ∈ transactions ->
       length (filter (fun r => a_txn r = t) out) = 1%nat).
Proof.
  assert (Hrun : main two_payments_files = Ok (table_of two_payments_files))
    by (vm_compute; reflexivity).
  split.
  - do 5 eexists. split; [reflexivity|]. split; [exact Hrun|].
    repeat split.
  - intros H.
    specialize (H two_payments_files _ _ _ _ _ eq_refl Hrun
                  (list_elem_of_here _ _)).
    vm_compute in H. discriminate H.
Qed.

(** ** Amount cells that are not numbers *)

Section FirstNonNumeric.

Lemma first_non_numeric_app (l k : list num_cell) :
  first_non_numeric (l ++ k)
  = match first_non_numeric l with
    | Some text => Some text
    | None => first_non_numeric k
    end.
Proof.
  induction l as [|[x|text] l IH]; simpl; [reflexivity | exact IH | reflexivity].
Qed.

Lemma first_non_numeric_None (l : list num_cell) :
  first_non_numeric l = None <-> Forall numeric l.
Proof.
  induction l as [|[x|text] l IH]; simpl.
  - split; [constructor | reflexivity].
  - rewrite IH. split.
    + intros H. constructor; [by exists x | exact H].
    + by intros [_ H]%Forall_cons.
  - split; [discriminate|]. intros [[x [=]] _]%Forall_cons.
Qed.

(** The rows made out of one row carry its amount cell, and there is at
    least one of them: the column reads the same before and after. *)
Lemma first_non_numeric_bind {A B : Type} (g : B -> num_cell)
    (g' : A -> num_cell) (h : A -> list B) (l : list A) :
  (forall a, h a <> []) ->
  (forall a b, b ∈ h a -> g b = g' a) ->
  first_non_numeric (g <$> (l ≫= h)) = first_non_numeric (g' <$> l).
Proof.
  intros Hne Hg. induction l as [|a l IH]; [reflexivity|].
  rewrite bind_cons, fmap_app, first_non_numeric_app, IH, fmap_cons.
  specialize (Hne a). specialize (Hg a).
  destruct (h a) as [|b bs]; [done|]. clear Hne.
  assert (Hall : Forall (fun b' => g b' = g' a) (b :: bs)).
  { apply Forall_forall. intros b' Hb'. by apply Hg. }
  clear Hg. destruct (g' a) as [x|text] eqn:Ha.
  - assert (Hnone : first_non_numeric (g <$> (b :: bs)) = None).
    { apply first_non_numeric_None, Forall_fmap.
      eapply Forall_impl; [exact Hall|].
      intros b' Hb'. simpl. by exists x. }
    rewrite Hnone. reflexivity.
  - apply Forall_cons in Hall as [Hb _]. rewrite fmap_cons, Hb. reflexivity.
Qed.

Lemma first_non_numeric_drop_duplicates_from {A : Type} `{EqDecision A}
    (g : A -> num_cell) (seen l : list A) :
  Forall (fun a => numeric (g a)) seen ->
  first_non_numeric (g <$> drop_duplicates_from seen l)
  = first_non_numeric (g <$> l).
Proof.
  revert seen. induction l as [|a l IH]; intros seen Hseen; [reflexivity|].
  simpl. destruct (decide (a ∈ seen)) as [Hin|Hnin].
  - rewrite IH by assumption.
    rewrite Forall_forall in Hseen. destruct (Hseen a Hin) as [x ->].
    reflexivity.
  - rewrite fmap_cons. simpl. destruct (g a) as [x|text] eqn:Ha;
      [|reflexivity].
    apply IH. constructor; [by exists x | assumption].
Qed.

Lemma first_non_numeric_drop_duplicates {A : Type} `{EqDecision A}
    (g : A -> num_cell) (l : list A) :
  first_non_numeric (g <$> drop_duplicates l) = first_non_numeric (g <$> l).
Proof. apply first_non_numeric_drop_duplicates_from. constructor. Qed.

Lemma first_non_numeric_split (pre post : list num_cell) (text : string) :
  Forall numeric pre ->
  first_non_numeric (pre ++ NumText text :: post) = Some text.
Proof.
  intros Hpre. rewrite first_non_numeric_app.
  apply first_non_numeric_None in Hpre. by rewrite Hpre.
Qed.

(** The amount column of the enriched frame reads like the amount column
    of the transactions. *)
Lemma first_non_numeric_enrich customers transactions payments :
  first_non_numeric
    ((fun e => amount (f_row (e_row e)))
       <$> enrich customers transactions payments)
  = first_non_numeric (t_amount <$> transactions).
Proof.
  unfold enrich. rewrite <- list_fmap_compose.
  change ((fun e => amount (f_row (e_row e))) ∘ fill_unknown)
    with (fun e => amount (f_row (e_row e))).
  unfold merge_customers, merge_left.
  rewrite (first_non_numeric_bind _ (fun f => amount (f_row f))).
  - rewrite <- list_fmap_compose.
    change ((fun f => amount (f_row f)) ∘ add_features) with amount.
    rewrite first_non_numeric_drop_duplicates.
    unfold merge_payments, merge_left.
    apply first_non_numeric_bind.
    + intros a. apply merge_row_nonempty.
    + intros a b Hb. unfold amount.
      by rewrite (tp_txn_payments_of _ _ _ Hb).
  - intros a. apply merge_row_nonempty.
  - intros a b Hb. by rewrite (e_row_merge_row _ _ _ Hb).
Qed.

(** Row by row, [float] stops the run at the first amount that is no
    number, and nothing else stops it. *)
Lemma mapM_classify_row (e : list Enriched) :
  match first_non_numeric ((fun e => amount (f_row (e_row e))) <$> e) with
  | Some text => mapM classify_row e = Raise (FloatError text)
  | None => exists out, mapM classify_row e = Ok out
  end.
Proof.
  induction e as [|r e IH]; [by eexists|].
  rewrite fmap_cons, mapM_cons.
  destruct (amount (f_row (e_row r))) as [x|text] eqn:Ha.
  - assert (Hr : exists b, classify_row r = Ok b)
      by (unfold classify_row; rewrite Ha; by eexists).
    destruct Hr as [b ->]. simpl.
    destruct (first_non_numeric _) as [text|].
    + by rewrite IH.
    + destruct IH as [out ->]. simpl. by eexists.
  - assert (Hr : classify_row r = Raise (FloatError text))
      by (unfold classify_row; by rewrite Ha).
    rewrite Hr. reflexivity.
Qed.

End FirstNonNumeric.

(** C7, as the code has it: there is no validation of [amount].  Once the
    dates are loaded: when every amount cell is a float (and there is a
    row), the run ends well, and a row whose amount is absent (NaN) is
    given a tier by its [delay_days] alone; when an amount cell is a text
    that is no number, the run stops with the error of [float] on the
    first such row, which carries the text of that cell and names no
    transaction id and none of the later rows. *)
Theorem amount_not_validated files customers transactions payments :
  load_raw_data files = Ok (customers, transactions, payments) ->
  (transactions <> [] ->
   Forall (fun t => exists x, t_amount t = NumFloat x) transactions ->
   exists out, main files = Ok out /\
     forall r, r ∈ out -> amount (a_txnpay r) = NumFloat FNaN ->
       risk_level r = if 30 <=? a_delay_days r then High
                      else if 10 <=? a_delay_days r then Medium
                      else Low) /\
  (forall pre t post text,
     transactions = pre ++ t :: post ->
     Forall (fun t => exists x, t_amount t = NumFloat x) pre ->
     t_amount t = NumText text ->
     main files = Raise (FloatError text)).
Proof.
  intros Hload. rewrite (main_loaded _ _ _ _ Hload).
  pose proof (mapM_classify_row (enrich customers transactions payments))
    as Hrun.
  rewrite first_non_numeric_enrich in Hrun.
  split.
  - intros _ Hnum.
    replace (first_non_numeric (t_amount <$> transactions))
      with (@None string) in Hrun
      by (symmetry; apply first_non_numeric_None; by apply Forall_fmap).
    destruct Hrun as [out Hout]. exists out. split; [exact Hout|].
    intros r Hr Hnan.
    rewrite <- (main_loaded _ _ _ _ Hload) in Hout.
    destruct (delay_days_origin _ _ _ Hout Hr) as (_ & _ & a & Ha & Hrisk).
    rewrite Hnan in Ha. injection Ha as <-.
    rewrite Hrisk. unfold assign_risk_level, HIGH_DELAY_THRESHOLD,
      MEDIUM_DELAY_THRESHOLD.
    by rewrite !float_ge_int_nan, !float_ge_int_of_Z.
  - intros pre t post text -> Hpre Htext.
    rewrite fmap_app, fmap_cons, Htext, first_non_numeric_split in Hrun.
    + exact Hrun.
    + by apply Forall_fmap.
Qed.

(** The run on two amounts that are no numbers stops at the first one;
    the run on an absent amount ends well. *)
Lemma amount_not_validated_witness :
  main text_amount_files = Raise (FloatError "abc") /\
  exists out r, main absent_amount_files = Ok out /\ r ∈ out /\
    amount (a_txnpay r) = NumFloat FNaN /\ a_delay_days r = 3 /\
    risk_level r = Low.
Proof.
  split.
  - refine (proj2 (amount_not_validated text_amount_files _ _ _ eq_refl)
              [_] _ [_] "abc"%string eq_refl _ eq_refl).
    constructor; [|constructor]. eexists. reflexivity.
  - destruct (proj1 (amount_not_validated absent_amount_files _ _ _ eq_refl))
      as (out & Hout & Hrisk).
    + discriminate.
    + constructor; [|constructor]. eexists. reflexivity.
    + exists out.
      assert (Hrun : main absent_amount_files
                     = Ok (table_of absent_amount_files))
        by (vm_compute; reflexivity).
      rewrite Hrun in Hout. injection Hout as <-.
      eexists. split; [reflexivity|]. split; [left|].
      split; [reflexivity|]. split; [reflexivity|].
      apply (Hrisk _ (list_elem_of_here _ _) eq_refl).
Defined.

(** C7 as the specification words it fails on an absent amount: the run
    ends well and the row is given a tier. *)
Lemma absent_amount_classified :
  (exists r,
     main absent_amount_files = Ok [r] /\
     txn_id (a_txnpay r) = 5 /\
     amount (a_txnpay r) = NumFloat FNaN /\
     risk_level r = Low) /\
  ~ (forall files,
       (exists rt, rt ∈ transactions_csv files /\
          (rt_amount rt = NumFloat FNaN \/
           exists text, rt_amount rt = NumText text)) ->
       exists e, main files = Raise e).
Proof.
  assert (Hrun : main absent_amount_files = Ok (table_of absent_amount_files))
    by (vm_compute; reflexivity).
  split.
  - eexists. split; [exact Hrun|]. repeat split.
  - intros H. destruct (H absent_amount_files) as [e He].
    + eexists. split; [left|]. left. reflexivity.
    + rewrite Hrun in He. discriminate He.
Qed.


(** * Further properties of the pipeline and of its consumers *)

(** ** What [drop_duplicates] keeps *)

Section DropDuplicatesOrder.
Context {A : Type} `{EqDecision A}.
Implicit Types (x : A) (l seen : list A).

Lemma drop_duplicates_from_app_seen seen1 seen2 l :
  drop_duplicates_from (seen1 ++ seen2) l
  = drop_duplicates_from seen1 (filter (fun y => y ∉ seen2) l).
Proof.
  revert seen1. induction l as [|x l IH]; intros seen1; [reflexivity|].
  rewrite filter_cons. simpl.
  destruct (decide (x ∉ seen2)) as [Hx2|Hx2].
  - simpl. destruct (decide (x ∈ seen1)) as [Hx1|Hx1].
    + rewrite decide_True by (apply elem_of_app; by left). apply IH.
    + rewrite decide_False by (rewrite elem_of_app; tauto).
      f_equal. apply (IH (x :: seen1)).
  - rewrite decide_True; [apply IH|].
    apply elem_of_app. right. by destruct (decide (x ∈ seen2)).
Qed.

Lemma drop_duplicates_cons x l :
  drop_duplicates (x :: l)
  = x :: drop_duplicates (filter (fun y => y <> x) l).
Proof.
  unfold drop_duplicates. simpl. f_equal.
  etrans; [exact (drop_duplicates_from_app_seen [] [x] l)|]. f_equal.
  apply list_filter_iff. intros y. rewrite list_elem_of_singleton. tauto.
Qed.

Lemma drop_duplicates_from_sublist seen l :
  drop_duplicates_from seen l `sublist_of` l.
Proof.
  revert seen. induction l as [|x l IH]; intros seen; simpl.
  - constructor.
  - destruct (decide (x ∈ seen)).
    + apply sublist_cons, IH.
    + apply sublist_skip, IH.
Qed.

Lemma drop_duplicates_length l : (length (drop_duplicates l) <= length l)%nat.
Proof. apply sublist_length, drop_duplicates_from_sublist. Qed.

(** Mapping an injective column function commutes with deduplication. *)
Lemma drop_duplicates_from_fmap_inj {B : Type} `{EqDecision B}
    (f : A -> B) seen l :
  (forall x y, x ∈ seen ++ l -> y ∈ seen ++ l -> f x = f y -> x = y) ->
  f <$> drop_duplicates_from seen l
  = drop_duplicates_from (f <$> seen) (f <$> l).
Proof.
  revert seen. induction l as [|x l IH]; intros seen Hinj; [reflexivity|].
  simpl. destruct (decide (x ∈ seen)) as [Hx|Hx].
  - rewrite decide_True by (by apply list_elem_of_fmap_2).
    apply IH. intros y z Hy Hz. apply Hinj; rewrite elem_of_app in *;
      rewrite ?elem_of_cons; tauto.
  - rewrite decide_False.
    + rewrite fmap_cons. f_equal. apply (IH (x :: seen)).
      intros y z Hy Hz. apply Hinj;
        rewrite elem_of_app, ?elem_of_cons in *; tauto.
    + intros (y & Hxy & Hy)%list_elem_of_fmap. apply Hx.
      rewrite (Hinj x y); [assumption | | | assumption];
        rewrite elem_of_app, ?elem_of_cons; tauto.
Qed.

Lemma drop_duplicates_fmap_inj {B : Type} `{EqDecision B} (f : A -> B) l :
  (forall x y, x ∈ l -> y ∈ l -> f x = f y -> x = y) ->
  f <$> drop_duplicates l = drop_duplicates (f <$> l).
Proof. intros Hinj. by apply (drop_duplicates_from_fmap_inj f []). Qed.

(** A column read before or after deduplication of the rows has the same
    distinct values, in the same order. *)
Lemma drop_duplicates_from_fmap_drop {B : Type} `{EqDecision B}
    (f : A -> B) (seenB : list B) seen l :
  (forall x, x ∈ seen -> f x ∈ seenB) ->
  drop_duplicates_from seenB (f <$> drop_duplicates_from seen l)
  = drop_duplicates_from seenB (f <$> l).
Proof.
  revert seen seenB. induction l as [|x l IH]; intros seen seenB Hseen;
    [reflexivity|].
  simpl. destruct (decide (x ∈ seen)) as [Hx|Hx].
  - rewrite decide_True by (by apply Hseen). by apply IH.
  - rewrite fmap_cons. simpl. destruct (decide (f x ∈ seenB)) as [Hf|Hf].
    + apply IH. intros y [->|Hy]%elem_of_cons; [assumption | by apply Hseen].
    + f_equal. apply IH. intros y [->|Hy]%elem_of_cons; [left|].
      right. by apply Hseen.
Qed.

Lemma drop_duplicates_fmap_drop {B : Type} `{EqDecision B} (f : A -> B) l :
  drop_duplicates (f <$> drop_duplicates l) = drop_duplicates (f <$> l).
Proof.
  apply (drop_duplicates_from_fmap_drop f [] []). intros x Hx. inversion Hx.
Qed.

(** Rows that each stand for one value, one or more times in a row, read
    like the values once each. *)
Lemma drop_duplicates_from_bind {B C : Type} (g : C -> A) (g' : B -> A)
    (h : B -> list C) seen (l : list B) :
  (forall b, h b <> []) ->
  (forall b c, c ∈ h b -> g c = g' b) ->
  drop_duplicates_from seen (g <$> (l ≫= h))
  = drop_duplicates_from seen (g' <$> l).
Proof.
  intros Hne Hg.
  assert (Hskip : forall x cs rest seen',
    x ∈ seen' -> Forall (fun c => g c = x) cs ->
    drop_duplicates_from seen' ((g <$> cs) ++ rest)
    = drop_duplicates_from seen' rest).
  { intros x cs rest seen' Hx Hcs. induction Hcs as [|c cs Hc _ IHc];
      [reflexivity|].
    rewrite fmap_cons. simpl. rewrite Hc, decide_True by assumption.
    exact IHc. }
  revert seen. induction l as [|b l IH]; intros seen; [reflexivity|].
  rewrite bind_cons, fmap_app, fmap_cons.
  specialize (Hne b). specialize (Hg b).
  destruct (h b) as [|c cs]; [done|].
  assert (Hc : g c = g' b) by (apply Hg; left).
  assert (Hcs : Forall (fun c' => g c' = g' b) cs).
  { apply Forall_forall. intros c' Hc'. apply Hg. by right. }
  rewrite fmap_cons, Hc. simpl.
  destruct (decide (g' b ∈ seen)) as [Hin|Hin].
  - rewrite (Hskip (g' b)) by assumption. apply IH.
  - f_equal. rewrite (Hskip (g' b)) by (left || assumption). apply IH.
Qed.

End DropDuplicatesOrder.

(** X1: [drop_duplicates] keeps the first row of every group of equal rows
    and leaves the kept rows in their order: its result is the input with
    rows struck out, and after a first row [x] it goes on with the other
    rows that differ from [x]. *)
Theorem drop_duplicates_keeps_first {A : Type} `{EqDecision A}
    (x : A) (l : list A) :
  drop_duplicates (x :: l)
    = x :: drop_duplicates (filter (fun y => y <> x) l) /\
  drop_duplicates l `sublist_of` l /\
  (length (drop_duplicates l) <= length l)%nat /\
  (length (drop_duplicates l) = length l <-> NoDup l).
Proof.
  split; [apply drop_duplicates_cons|].
  split; [apply drop_duplicates_from_sublist|].
  split; [apply drop_duplicates_length|].
  split.
  - intros Hlen.
    assert (Hperm : drop_duplicates l ≡ₚ l).
    { apply submseteq_length_Permutation; [|lia].
      apply sublist_submseteq, drop_duplicates_from_sublist. }
    rewrite <- Hperm. apply NoDup_drop_duplicates.
  - intros Hnd. by rewrite drop_duplicates_NoDup.
Qed.

(** Four rows, two of them written twice: two are struck out; on rows
    that are all different nothing is struck out. *)
Lemma drop_duplicates_keeps_first_witness :
  drop_duplicates [7; 5; 7; 5] = [7; 5] /\
  length (drop_duplicates [7; 5; 3]) = length [7; 5; 3].
Proof.
  split.
  - rewrite (proj1 (drop_duplicates_keeps_first 7 [5; 7; 5])). reflexivity.
  - apply (proj2 (proj2 (proj2 (drop_duplicates_keeps_first 0 [7; 5; 3])))).
    repeat constructor; rewrite ?elem_of_cons;
      try (intros [H|[H|H]]; [discriminate H | discriminate H | inversion H]);
      try (intros [H|H]; [discriminate H | inversion H]);
      try (intros H; inversion H).
Defined.

(** ** What [load_raw_data] returns and when it raises *)

Section LoadRawData.

Lemma to_datetime_cell_raise_Ok (c : date_cell) :
  clean_date c <-> exists d, to_datetime_cell ErrorsRaise c = Ok d.
Proof.
  unfold clean_date. destruct c as [|ns|text]; simpl.
  - split; [by eexists | discriminate].
  - split; [by eexists | discriminate].
  - split; [intros H; by destruct (H text) | intros [d [=]]].
Qed.

Lemma to_datetime_cell_coerced (errors : errors_mode) (c : date_cell) d :
  to_datetime_cell errors c = Ok d -> d = coerced c.
Proof. destruct c, errors; simpl; congruence. Qed.

Lemma to_datetime_Ok (errors : errors_mode) (column : list date_cell) dates :
  to_datetime errors column = Ok dates -> dates = coerced <$> column.
Proof.
  intros H%mapM_Ok_Forall2. induction H as [|c d column dates Hc _ IH].
  - reflexivity.
  - rewrite fmap_cons, <- IH. f_equal. by eapply to_datetime_cell_coerced.
Qed.

Lemma to_datetime_coerce_Ok (column : list date_cell) :
  to_datetime ErrorsCoerce column = Ok (coerced <$> column).
Proof.
  destruct (to_datetime_coerce_total column) as [ds Hds].
  rewrite Hds. f_equal. by eapply to_datetime_Ok.
Qed.

Lemma to_datetime_raise_Ok_clean (column : list date_cell) dates :
  to_datetime ErrorsRaise column = Ok dates -> Forall clean_date column.
Proof.
  intros H%mapM_Ok_Forall2. induction H as [|c d column dates Hc _ IH];
    constructor; [|exact IH].
  apply to_datetime_cell_raise_Ok. by exists d.
Qed.

(** The row that loading makes of a row of [transactions.csv], and of a row
    of [payments.csv]. *)
Lemma zip_with_set_dates (rows : list RawTransaction) :
  zip_with set_dates rows
    (zip (coerced <$> (rt_txn_date <$> rows))
         (coerced <$> (rt_due_date <$> rows)))
  = (fun rt => set_dates rt (coerced (rt_txn_date rt),
                             coerced (rt_due_date rt))) <$> rows.
Proof. induction rows as [|rt rows IH]; [reflexivity|]. simpl. by f_equal. Qed.

Lemma zip_with_set_payment_date (rows : list RawPayment) :
  zip_with set_payment_date rows (coerced <$> (rp_payment_date <$> rows))
  = (fun rp => set_payment_date rp (coerced (rp_payment_date rp))) <$> rows.
Proof. induction rows as [|rp rows IH]; [reflexivity|]. simpl. by f_equal. Qed.

Lemma load_raw_data_Ok files customers transactions payments :
  load_raw_data files = Ok (customers, transactions, payments) ->
  Forall clean_date (rt_txn_date <$> transactions_csv files) /\
  Forall clean_date (rt_due_date <$> transactions_csv files) /\
  customers = customers_csv files /\
  transactions
    = (fun rt => set_dates rt (coerced (rt_txn_date rt),
                               coerced (rt_due_date rt)))
        <$> transactions_csv files /\
  payments
    = (fun rp => set_payment_date rp (coerced (rp_payment_date rp)))
        <$> payments_csv files.
Proof.
  unfold load_raw_data.
  destruct (to_datetime ErrorsRaise (rt_txn_date <$> _)) as [d1|] eqn:H1;
    simpl; [|discriminate].
  destruct (to_datetime ErrorsRaise (rt_due_date <$> _)) as [d2|] eqn:H2;
    simpl; [|discriminate].
  destruct (to_datetime ErrorsCoerce _) as [d3|] eqn:H3; simpl;
    [|discriminate].
  intros [= <- <- <-].
  split; [by eapply to_datetime_raise_Ok_clean|].
  split; [by eapply to_datetime_raise_Ok_clean|].
  split; [reflexivity|].
  rewrite (to_datetime_Ok _ _ _ H1), (to_datetime_Ok _ _ _ H2),
    (to_datetime_Ok _ _ _ H3).
  by rewrite zip_with_set_dates, zip_with_set_payment_date.
Qed.

End LoadRawData.



(** ** Where the cells of a row of the table come from *)

(** X5: the joins make up nothing.  Every row of the table carries a row
    of the loaded transactions as it is.  Its payment date and its paid
    amount are those of a payment row with the same [txn_id], and so is
    its payment id when that is a whole number of at most 2^53 in size
    (the payment ids of the joined frame are floats); or its payment
    columns are all missing when there is no such payment row.  Its
    customer columns are those of a customer row with the same
    [customer_id] (a missing sector or country written "Unknown"), or
    missing, "Unknown" and "Unknown" when there is no such customer
    row. *)
Theorem table_rows_come_from_input
    files customers transactions payments out r :
  load_raw_data files = Ok (customers, transactions, payments) ->
  main files = Ok out -> r ∈ out ->
  a_txn r ∈ transactions /\
  ((exists p, p ∈ payments /\ p_txn_id p = txn_id (a_txnpay r) /\
      payment_date (a_txnpay r) = p_payment_date p /\
      paid_amount (a_txnpay r) = p_paid_amount p /\
      (- 2 ^ 53 <= p_payment_id p <= 2 ^ 53 ->
       payment_id (a_txnpay r) = Some (p_payment_id p))) \/
   ((forall p, p ∈ payments -> p_txn_id p <> txn_id (a_txnpay r)) /\
    a_txnpay r = without_payment (a_txn r))) /\
  ((exists c, c ∈ customers /\
      c_customer_id c = customer_id (a_txnpay r) /\
      customer_name (a_row r) = c_customer_name c /\
      sector (a_row r) = Some (fillna "Unknown"%string (c_sector c)) /\
      country (a_row r) = Some (fillna "Unknown"%string (c_country c))) \/
   ((forall c, c ∈ customers ->
       c_customer_id c <> customer_id (a_txnpay r)) /\
    customer_name (a_row r) = None /\
    sector (a_row r) = Some "Unknown"%string /\
    country (a_row r) = Some "Unknown"%string)).
Proof.
  intros Hload Hmain Hr.
  destruct (table_row_origin _ _ _ _ _ _ Hload Hmain Hr)
    as (e0 & Hx & He0 & Hrow & _ & _).
  apply elem_of_merge_payments in Hx as [Ht Hx].
  split; [exact Ht|]. split.
  - apply elem_of_merge_row in Hx as [(p & Hp & Hk & Heq) | [Hno Heq]].
    + left. exists p. unfold a_txn in Heq. rewrite Heq. simpl.
      repeat split; assumption.
    + right. split; assumption.
  - rewrite Hrow.
    apply elem_of_merge_row in He0 as [(c & Hc & Hk & ->) | [Hno ->]].
    + left. exists c. repeat split; assumption.
    + right. repeat split. exact Hno.
Qed.

(** Transaction 1 of the sample files with its payment row and its
    customer row. *)
Lemma table_rows_come_from_input_witness :
  exists r, r ∈ table_of sample_files /\
    txn_id (a_txnpay r) = 1 /\
    payment_id (a_txnpay r) = Some 1 /\
    customer_name (a_row r) = Some "Customer_001"%string.
Proof.
  assert (Hrun : main sample_files = Ok (table_of sample_files))
    by (vm_compute; reflexivity).
  eexists. split; [left|]. split; [reflexivity|].
  destruct (table_rows_come_from_input sample_files _ _ _ _ _ eq_refl Hrun
              (list_elem_of_here _ _)) as (_ & Hpay & _).
  split; [|reflexivity].
  destruct Hpay as [(p & Hin & Hk & _ & _ & Hid) | [_ Hnone]].
  - assert (Hp : p_payment_id p = 1).
    { vm_compute in Hin.
      repeat (apply elem_of_cons in Hin as [->|Hin]);
        [reflexivity | discriminate Hk | discriminate Hk | inversion Hin]. }
    rewrite Hid; rewrite Hp; [reflexivity|].
    split; vm_compute; discriminate.
  - discriminate (f_equal payment_id Hnone).
Defined.

(** X6: the empty side files.  With no row in [payments.csv] every row of
    the table is unpaid, without payment columns and with zero delay; with
    no row in [customers.csv] every row has no customer name and the
    sector and country "Unknown". *)
Theorem empty_side_files files out r :
  main files = Ok out -> r ∈ out ->
  (payments_csv files = [] ->
   payment_id (a_txnpay r) = None /\ payment_date (a_txnpay r) = None /\
   paid_amount (a_txnpay r) = FNaN /\
   a_is_paid r = false /\ a_delay_days r = 0) /\
  (customers_csv files = [] ->
   customer_name (a_row r) = None /\
   sector (a_row r) = Some "Unknown"%string /\
   country (a_row r) = Some "Unknown"%string).
Proof.
  intros Hmain Hr.
  destruct (main_Ok_load _ _ Hmain) as (c & t & p & Hload & _).
  pose proof (load_raw_data_Ok _ _ _ _ Hload) as (_ & _ & Hc & _ & Hp).
  destruct (table_row_origin _ _ _ _ _ _ Hload Hmain Hr)
    as (e0 & Hx & He0 & Hrow & _ & _).
  destruct (delay_days_origin _ _ _ Hmain Hr) as (Hpaid & Hdelay & _).
  split.
  - intros Hempty. rewrite Hempty in Hp. simpl in Hp. subst p.
    apply elem_of_merge_payments in Hx as [_ Hx].
    apply elem_of_merge_row in Hx as [(p0 & Hp0 & _) | [_ Heq]];
      [inversion Hp0|].
    rewrite Hpaid, Hdelay, Heq. repeat split.
  - intros Hempty. rewrite Hempty in Hc. subst c. rewrite Hrow.
    apply elem_of_merge_row in He0 as [(c0 & Hc0 & _) | [_ ->]];
      [inversion Hc0 | repeat split].
Qed.

(** Three transaction rows, no payment row and no customer row. *)
Lemma empty_side_files_witness :
  exists r, r ∈ table_of lonely_files /\
    a_is_paid r = false /\ a_delay_days r = 0 /\
    sector (a_row r) = Some "Unknown"%string.
Proof.
  assert (Hrun : main lonely_files = Ok (table_of lonely_files))
    by (vm_compute; reflexivity).
  eexists. split; [left|].
  destruct (empty_side_files lonely_files _ _ Hrun (list_elem_of_here _ _))
    as [Hp Hc].
  destruct (Hp eq_refl) as (_ & _ & _ & H1 & H2).
  destruct (Hc eq_refl) as (_ & H3 & _).
  split; [exact H1|]. split; [exact H2 | exact H3].
Defined.

(** ** The rows of the table, counted and in order *)

Section TableOrder.
Context (files : RawData) (customers : list Customer)
        (transactions : list Transaction) (payments : list Payment)
        (out : list AnalysisRecord).
Hypothesis loaded :
  load_raw_data files = Ok (customers, transactions, payments).
Hypothesis emitted : main files = Ok out.

Lemma a_txn_table :
  a_txn <$> out
  = (fun e => tp_txn (f_row (e_row e)))
      <$> enrich customers transactions payments.
Proof.
  rewrite <- (table_enrich _ _ _ _ _ loaded emitted), <- list_fmap_compose.
  reflexivity.
Qed.

Lemma NoDup_key_inj {B : Type} (k : B -> Z) (l : list B) (x y : B) :
  NoDup (k <$> l) -> x ∈ l -> y ∈ l -> k x = k y -> x = y.
Proof.
  induction l as [|b l IH]; intros Hnd Hx Hy Hk; [inversion Hx|].
  rewrite fmap_cons in Hnd. apply NoDup_cons in Hnd as [Hb Hnd].
  apply elem_of_cons in Hx as [->|Hx]; apply elem_of_cons in Hy as [->|Hy].
  - reflexivity.
  - exfalso. apply Hb. rewrite Hk. by apply list_elem_of_fmap_2.
  - exfalso. apply Hb. rewrite <- Hk. by apply list_elem_of_fmap_2.
  - by apply IH.
Qed.

End TableOrder.

(** X7: the distinct transaction rows stand in the table in the order of
    their first appearance in [transactions.csv]: the transaction columns
    of the table, read without repetitions, are the loaded transactions
    read without repetitions.  So the table has at least as many rows as
    there are distinct transaction rows. *)
Theorem distinct_transactions_in_order
    files customers transactions payments out :
  load_raw_data files = Ok (customers, transactions, payments) ->
  main files = Ok out ->
  drop_duplicates (a_txn <$> out) = drop_duplicates transactions /\
  (length (drop_duplicates transactions) <= length out)%nat.
Proof.
  intros Hload Hmain.
  assert (Horder : drop_duplicates (a_txn <$> out)
                   = drop_duplicates transactions).
  { rewrite (a_txn_table _ _ _ _ _ Hload Hmain). unfold enrich.
    rewrite <- list_fmap_compose.
    change ((fun e => tp_txn (f_row (e_row e))) ∘ fill_unknown)
      with (fun e : Enriched => tp_txn (f_row (e_row e))).
    unfold merge_customers, merge_left, drop_duplicates at 1.
    rewrite (drop_duplicates_from_bind _ (fun f => tp_txn (f_row f))).
    - rewrite <- list_fmap_compose.
      change ((fun f => tp_txn (f_row f)) ∘ add_features) with tp_txn.
      fold (drop_duplicates
              (tp_txn <$> drop_duplicates
                            (merge_payments transactions payments))).
      rewrite drop_duplicates_fmap_drop.
      unfold merge_payments, merge_left, drop_duplicates at 1.
      rewrite (drop_duplicates_from_bind _ id).
      + by rewrite list_fmap_id.
      + intros t. apply merge_row_nonempty.
      + intros t x Hx. by apply tp_txn_payments_of in Hx.
    - intros f. apply merge_row_nonempty.
    - intros f e He. by rewrite (e_row_merge_row _ _ _ He). }
  split; [exact Horder|].
  rewrite <- Horder, <- (length_fmap a_txn out).
  apply drop_duplicates_length.
Qed.

(** The generator's files: the transaction written twice is met once in
    the order, and twice in the table. *)
Lemma distinct_transactions_in_order_witness :
  exists customers transactions payments out,
    load_raw_data duplicated_files = Ok (customers, transactions, payments) /\
    main duplicated_files = Ok out /\
    length transactions = 2%nat /\ length out = 2%nat /\
    length (drop_duplicates (a_txn <$> out)) = 1%nat /\
    drop_duplicates (a_txn <$> out) = drop_duplicates transactions.
Proof.
  assert (Hrun : main duplicated_files = Ok (table_of duplicated_files))
    by (vm_compute; reflexivity).
  do 4 eexists. split; [reflexivity|]. split; [exact Hrun|].
  split; [reflexivity|]. split; [reflexivity|]. split; [reflexivity|].
  apply (distinct_transactions_in_order duplicated_files _ _ _ _
           eq_refl Hrun).
Defined.

(** X8: with at most one payment row per [txn_id] and at most one customer
    row per [customer_id], the table has exactly the distinct rows of the
    loaded transactions, once each and in their order; and the number that
    [main] prints as dropped duplicates is the number of repeated
    transaction rows. *)
Theorem table_is_distinct_transactions
    files customers transactions payments out :
  load_raw_data files = Ok (customers, transactions, payments) ->
  main files = Ok out ->
  NoDup (p_txn_id <$> payments) ->
  NoDup (c_customer_id <$> customers) ->
  a_txn <$> out = drop_duplicates transactions /\
  length out = length (drop_duplicates transactions) /\
  (length (merge_payments transactions payments)
   - length (drop_duplicates (merge_payments transactions payments))
   = length transactions - length (drop_duplicates transactions))%nat.
Proof.
  intros Hload Hmain Hpay Hcust.
  assert (Hone : tp_txn <$> merge_payments transactions payments
                 = transactions).
  { unfold merge_payments. apply merge_left_one_to_one; try reflexivity.
    intros t _. by apply filter_key_NoDup. }
  assert (Hinj : forall x y,
            x ∈ merge_payments transactions payments ->
            y ∈ merge_payments transactions payments ->
            tp_txn x = tp_txn y -> x = y).
  { intros x y Hx Hy Heq.
    apply elem_of_merge_payments in Hx as [_ Hx].
    apply elem_of_merge_payments in Hy as [_ Hy].
    rewrite <- Heq in Hy.
    apply elem_of_merge_row in Hx as [(b & Hb & Hkb & ->) | [Hno ->]];
      apply elem_of_merge_row in Hy as [(b' & Hb' & Hkb' & ->) | [Hno' ->]].
    - f_equal. eapply (NoDup_key_inj p_txn_id); eauto. congruence.
    - destruct (Hno' b Hb Hkb).
    - destruct (Hno b' Hb' Hkb').
    - reflexivity. }
  assert (Hdedup : tp_txn <$> drop_duplicates
                                (merge_payments transactions payments)
                   = drop_duplicates transactions).
  { rewrite (drop_duplicates_fmap_inj tp_txn) by exact Hinj.
    by rewrite Hone. }
  assert (Htable : a_txn <$> out = drop_duplicates transactions).
  { change a_txn with (tp_txn ∘ a_txnpay).
    rewrite list_fmap_compose,
      (a_txnpay_table _ _ _ _ _ Hload Hmain Hcust).
    exact Hdedup. }
  split; [exact Htable|]. split.
  - by rewrite <- Htable, length_fmap.
  - pose proof (f_equal length Hone) as Hlen.
    pose proof (f_equal length Hdedup) as Hlen'.
    rewrite length_fmap in Hlen, Hlen'. by rewrite Hlen, Hlen'.
Qed.

(** A transaction row written twice with one payment row: two rows in the
    table, one duplicate dropped. *)
Lemma table_is_distinct_transactions_witness :
  exists customers transactions payments out,
    load_raw_data repeated_row_files
      = Ok (customers, transactions, payments) /\
    main repeated_row_files = Ok out /\
    length transactions = 3%nat /\ length out = 2%nat /\
    a_txn <$> out = drop_duplicates transactions.
Proof.
  assert (Hrun : main repeated_row_files = Ok (table_of repeated_row_files))
    by (vm_compute; reflexivity).
  do 4 eexists. split; [reflexivity|]. split; [exact Hrun|].
  split; [reflexivity|]. split; [reflexivity|].
  apply (table_is_distinct_transactions repeated_row_files _ _ _ _
           eq_refl Hrun).
  - vm_compute. repeat constructor. intros H; inversion H.
  - vm_compute. repeat constructor; rewrite ?elem_of_cons;
      try (intros [H|H]; [discriminate H | inversion H]);
      try (intros H; inversion H).
Defined.

(** ** Tiers and delays in the table *)

(** X9: an unpaid row is given its tier by its amount alone (its delay is
    the zero of [fillna]), and a row that is thirty days late or more is
    High whatever its amount is, an absent amount included. *)
Theorem tier_of_unpaid_and_late_rows files out r :
  main files = Ok out -> r ∈ out ->
  exists a, amount (a_txnpay r) = NumFloat a /\
    (a_is_paid r = false ->
     risk_level r = if float_ge_int a 100000 then High
                    else if float_ge_int a 50000 then Medium
                    else Low) /\
    (30 <= a_delay_days r -> risk_level r = High) /\
    (a_delay_days r < 10 -> float_ge_int a 50000 = false ->
     risk_level r = Low).
Proof.
  intros Hmain Hr.
  destruct (delay_days_origin _ _ _ Hmain Hr)
    as (Hpaid & Hdelay & a & Ha & Hrisk).
  exists a. split; [exact Ha|].
  rewrite Hrisk. unfold assign_risk_level, HIGH_AMOUNT_THRESHOLD,
    HIGH_DELAY_THRESHOLD, MEDIUM_AMOUNT_THRESHOLD, MEDIUM_DELAY_THRESHOLD.
  rewrite !float_ge_int_of_Z. repeat split.
  - intros Hunpaid. rewrite Hpaid in Hunpaid.
    destruct (payment_date (a_txnpay r)); [discriminate|].
    simpl in Hdelay. rewrite Hdelay. simpl. by rewrite !orb_false_r.
  - intros Hlate. apply Z.leb_le in Hlate. rewrite Hlate.
    by rewrite orb_true_r.
  - intros Hearly Hsmall.
    assert (Hhigh : float_ge_int a 100000 = false).
    { destruct (float_ge_int a 100000) eqn:E; [|reflexivity].
      destruct a as [| |q|]; simpl in *; try congruence.
      apply Qle_bool_iff in E.
      assert (Hq : Qle_bool (inject_Z 50000) q = true); [|congruence].
      apply Qle_bool_iff. eapply Qle_trans; [|exact E].
      rewrite <- Zle_Qle. lia. }
    rewrite Hhigh, Hsmall.
    replace (30 <=? a_delay_days r) with false
      by (symmetry; apply Z.leb_gt; lia).
    replace (10 <=? a_delay_days r) with false
      by (symmetry; apply Z.leb_gt; lia).
    reflexivity.
Qed.

(** The unpaid transaction of the sample files, of amount 1000. *)
Lemma tier_of_unpaid_and_late_rows_witness :
  exists r, r ∈ table_of sample_files /\
    a_is_paid r = false /\ risk_level r = Low.
Proof.
  assert (Hrun : main sample_files = Ok (table_of sample_files))
    by (vm_compute; reflexivity).
  eexists. split; [right; left|]. split; [reflexivity|].
  destruct (tier_of_unpaid_and_late_rows sample_files _ _ Hrun
              (list_elem_of_further _ _ _ (list_elem_of_here _ _)))
    as (a & Ha & Hunpaid & _ & _).
  rewrite (Hunpaid eq_refl). injection Ha as <-. reflexivity.
Defined.

(** X10: for a paid row with a due date, [delay_days] counts the whole
    days from the due date to the payment date, rounding down: the
    payment date lies in the day that starts [delay_days] days after the
    due date.  A payment exactly [k] days after the due date, as the data
    generator writes them, has [delay_days = k], be [k] negative. *)
Theorem delay_days_whole_days files out r p d :
  main files = Ok out -> r ∈ out ->
  payment_date (a_txnpay r) = Some p -> due_date (a_txnpay r) = Some d ->
  d + a_delay_days r * NS_PER_DAY <= p
    < d + (a_delay_days r + 1) * NS_PER_DAY /\
  (forall k, p = d + k * NS_PER_DAY -> a_delay_days r = k).
Proof.
  intros Hmain Hr Hp Hd.
  destruct (delay_days_origin _ _ _ Hmain Hr) as (_ & Hdelay & _).
  rewrite Hp, Hd in Hdelay. simpl in Hdelay. rewrite Hdelay.
  assert (Hday : 0 < NS_PER_DAY) by (unfold NS_PER_DAY; lia).
  pose proof (Z.div_mod (p - d) NS_PER_DAY ltac:(lia)) as Hdiv.
  pose proof (Z.mod_pos_bound (p - d) NS_PER_DAY Hday) as Hmod.
  split; [lia|].
  intros k ->. replace (d + k * NS_PER_DAY - d) with (k * NS_PER_DAY) by lia.
  apply Z.div_mul. lia.
Qed.

(** Transaction 3 of the sample files, paid thirty-six hours before it was
    due: two whole days early. *)
Lemma delay_days_whole_days_witness :
  exists r, r ∈ table_of sample_files /\
    txn_id (a_txnpay r) = 3 /\
    midnight 19732 + a_delay_days r * NS_PER_DAY
      <= midnight 19730 + hours 12
      < midnight 19732 + (a_delay_days r + 1) * NS_PER_DAY.
Proof.
  assert (Hrun : main sample_files = Ok (table_of sample_files))
    by (vm_compute; reflexivity).
  eexists. split; [do 2 right; left|]. split; [reflexivity|].
  apply (delay_days_whole_days sample_files _ _ _ _ Hrun
           (list_elem_of_further _ _ _
              (list_elem_of_further _ _ _ (list_elem_of_here _ _)))
           eq_refl eq_refl).
Defined.

(** X11: not-a-number is the lowest amount and the lowest delay for
    [assign_risk_level]: putting NaN for an argument never raises the
    tier, and two NaN give Low; an infinite amount or delay gives High. *)
Theorem assign_risk_level_nan (a d : pyfloat) :
  risk_le (assign_risk_level FNaN d) (assign_risk_level a d) /\
  risk_le (assign_risk_level a FNaN) (assign_risk_level a d) /\
  assign_risk_level FNaN FNaN = Low /\
  assign_risk_level FPosInf d = High /\
  assign_risk_level a FPosInf = High /\
  assign_risk_level FNegInf d = assign_risk_level FNaN d.
Proof.
  unfold assign_risk_level, risk_le. simpl.
  destruct (float_ge_int a HIGH_AMOUNT_THRESHOLD),
           (float_ge_int a MEDIUM_AMOUNT_THRESHOLD),
           (float_ge_int d HIGH_DELAY_THRESHOLD),
           (float_ge_int d MEDIUM_DELAY_THRESHOLD);
    simpl; repeat split; lia.
Qed.

(** ** The loader of the dashboard *)

Section LoadData.
Context {O : Type}.

Lemma zip_with_set_dash_dates (has_column : bool) (rows : list (CsvRow O)) :
  zip_with (set_dash_dates has_column) rows
    (zip (zip (coerced <$> (cr_txn_date <$> rows))
              (coerced <$> (cr_due_date <$> rows)))
         (coerced <$> (cr_payment_date <$> rows)))
  = (fun row => set_dash_dates has_column row
       (coerced (cr_txn_date row), coerced (cr_due_date row),
        coerced (cr_payment_date row))) <$> rows.
Proof. induction rows as [|row rows IH]; [reflexivity|]. simpl. by f_equal. Qed.

Lemma load_data_Ok (csv : CsvFrame O) :
  load_data csv
  = Ok ((fun row => set_dash_dates (has_is_paid csv) row
           (coerced (cr_txn_date row), coerced (cr_due_date row),
            coerced (cr_payment_date row))) <$> csv_rows csv).
Proof.
  unfold load_data. rewrite !to_datetime_coerce_Ok. simpl.
  by rewrite zip_with_set_dash_dates.
Qed.

End LoadData.



(** ** The order of the rows of the input files *)

Section RowOrder.

(** A right table with at most one row per key may be read in any order. *)
Lemma merge_left_Permutation_right {A B C : Type}
    (key_l : A -> Z) (key_r : B -> Z)
    (matched : A -> B -> C) (unmatched : A -> C)
    (left : list A) (right right' : list B) :
  right ≡ₚ right' -> NoDup (key_r <$> right) ->
  merge_left key_l key_r matched unmatched left right
  = merge_left key_l key_r matched unmatched left right'.
Proof.
  intros Hperm Hnd. unfold merge_left.
  apply list_bind_ext; [|reflexivity]. intros a. unfold merge_row.
  pose proof (filter_key_NoDup key_r (key_l a) right Hnd) as Hone.
  assert (Hf : filter (fun b => key_r b = key_l a) right
               ≡ₚ filter (fun b => key_r b = key_l a) right')
    by (by rewrite Hperm).
  destruct (filter (fun b => key_r b = key_l a) right) as [|b [|b1 bs]];
    simpl in Hone; [| |lia].
  - apply Permutation_nil_l in Hf. by rewrite <- Hf.
  - apply Permutation_singleton_l in Hf. by rewrite <- Hf.
Qed.

(** Classifying the rows of a frame in another order gives the classified
    rows in that order. *)
Lemma Forall2_mapM_Ok {A B : Type} (f : A -> result B) l bs :
  Forall2 (fun a b => f a = Ok b) l bs -> mapM f l = Ok bs.
Proof.
  induction 1 as [|a b l bs Hab _ IH]; [reflexivity|].
  rewrite mapM_cons, Hab. simpl. by rewrite IH.
Qed.

Lemma Forall2_Permutation_l {A B : Type} (R : A -> B -> Prop) l l' :
  l ≡ₚ l' -> forall k, Forall2 R l k ->
  exists k', Forall2 R l' k' /\ k ≡ₚ k'.
Proof.
  induction 1 as [|a l l' _ IH|a b l|l l' l'' _ IH1 _ IH2]; intros k Hk.
  - apply Forall2_nil_inv_l in Hk as ->. exists []. by split.
  - apply Forall2_cons_inv_l in Hk as (y & k0 & Hy & Hk0 & ->).
    destruct (IH k0 Hk0) as (k0' & Hk0' & Hperm).
    exists (y :: k0'). split; [by constructor | by constructor].
  - apply Forall2_cons_inv_l in Hk as (y & k0 & Hy & Hk0 & ->).
    apply Forall2_cons_inv_l in Hk0 as (x & k1 & Hx & Hk1 & ->).
    exists (x :: y :: k1). split; [by repeat constructor | constructor].
  - destruct (IH1 k Hk) as (k' & Hk' & Hp1).
    destruct (IH2 k' Hk') as (k'' & Hk'' & Hp2).
    exists k''. split; [exact Hk'' | by etrans].
Qed.

Lemma mapM_Permutation {A B : Type} (f : A -> result B) (l l' : list A) out :
  l ≡ₚ l' -> mapM f l = Ok out ->
  exists out', mapM f l' = Ok out' /\ out ≡ₚ out'.
Proof.
  intros Hperm Hout%mapM_Ok_Forall2.
  destruct (Forall2_Permutation_l _ _ _ Hperm _ Hout) as (out' & H & Hp).
  exists out'. split; [by apply Forall2_mapM_Ok | exact Hp].
Qed.

Lemma enrich_Permutation customers transactions transactions' payments :
  transactions ≡ₚ transactions' ->
  enrich customers transactions payments
  ≡ₚ enrich customers transactions' payments.
Proof.
  intros Hperm. unfold enrich, merge_customers, merge_payments, merge_left.
  apply fmap_Permutation, bind_Permutation, fmap_Permutation,
    drop_duplicates_Permutation, bind_Permutation, Hperm.
Qed.

End RowOrder.

(** X14: once the files are loaded, the order of the payment rows and of
    the customer rows does not matter, as long as no [txn_id] stands twice
    among the payments and no [customer_id] twice among the customers:
    two inputs that load to the same transactions, and to payments and
    customers that are the same rows in another order, give the same
    table, or the same error. *)
Theorem side_files_order_irrelevant
    files files' customers customers' transactions payments payments' :
  load_raw_data files = Ok (customers, transactions, payments) ->
  load_raw_data files' = Ok (customers', transactions, payments') ->
  payments ≡ₚ payments' ->
  customers ≡ₚ customers' ->
  NoDup (p_txn_id <$> payments) ->
  NoDup (c_customer_id <$> customers) ->
  main files = main files'.
Proof.
  intros Hload Hload' Hp Hc Hndp Hndc.
  rewrite (main_loaded _ _ _ _ Hload), (main_loaded _ _ _ _ Hload').
  f_equal. unfold enrich, merge_payments, merge_customers.
  rewrite (merge_left_Permutation_right _ _ _ _ _ _ _ Hp Hndp).
  by rewrite (merge_left_Permutation_right _ _ _ _ _ _ _ Hc Hndc).
Qed.

(** The sample files with the payment rows and the customer rows in
    another order. *)
Lemma side_files_order_irrelevant_witness :
  main sample_files
  = main {| customers_csv := customers_csv sample_files_reordered;
            transactions_csv := transactions_csv sample_files;
            payments_csv := payments_csv sample_files_reordered |}.
Proof.
  apply (side_files_order_irrelevant sample_files
           {| customers_csv := customers_csv sample_files_reordered;
              transactions_csv := transactions_csv sample_files;
              payments_csv := payments_csv sample_files_reordered |}
           _ _ _ _ _ eq_refl eq_refl).
  - vm_compute. etrans; [apply perm_skip, perm_swap|]. apply perm_swap.
  - vm_compute. apply perm_swap.
  - vm_compute. repeat constructor; rewrite ?elem_of_cons;
      try (intros [H|[H|H]]; [discriminate H | discriminate H | inversion H]);
      try (intros [H|H]; [discriminate H | inversion H]);
      try (intros H; inversion H).
  - vm_compute. repeat constructor; rewrite ?elem_of_cons;
      try (intros [H|H]; [discriminate H | inversion H]);
      try (intros H; inversion H).
Defined.

(** X15: once the files are loaded, the order of the transaction rows only
    changes the order of the table: for two inputs that load to the same
    customers and payments, and to transactions that are the same rows in
    another order, when the run on the first ends well, so does the run
    on the second, and its table has the same rows in another order. *)
Theorem transactions_order_permutes_table
    files files' customers transactions transactions' payments out :
  load_raw_data files = Ok (customers, transactions, payments) ->
  load_raw_data files' = Ok (customers, transactions', payments) ->
  transactions ≡ₚ transactions' ->
  main files = Ok out ->
  exists out', main files' = Ok out' /\ out ≡ₚ out'.
Proof.
  intros Hload Hload' Ht Hmain.
  rewrite (main_loaded _ _ _ _ Hload) in Hmain.
  rewrite (main_loaded _ _ _ _ Hload').
  eapply mapM_Permutation; [|exact Hmain].
  by apply enrich_Permutation.
Qed.

(** The sample files with the transaction rows in another order. *)
Lemma transactions_order_permutes_table_witness :
  exists out',
    main {| customers_csv := customers_csv sample_files;
            transactions_csv := transactions_csv sample_files_reordered;
            payments_csv := payments_csv sample_files |} = Ok out' /\
    table_of sample_files ≡ₚ out'.
Proof.
  apply (transactions_order_permutes_table sample_files
           {| customers_csv := customers_csv sample_files;
              transactions_csv := transactions_csv sample_files_reordered;
              payments_csv := payments_csv sample_files |}
           _ _ _ _ (table_of sample_files) eq_refl eq_refl).
  - vm_compute. etrans; [apply perm_swap|]. do 2 apply perm_skip.
    apply perm_swap.
  - vm_compute. reflexivity.
Defined.
